(** * Eagle Access: face-recognition access control

    A shallow embedding of the decision engine of the repository
    (backend/embedding_manager.py, backend/user_manager.py,
    backend/face_recognition.py and api.py) and the proofs of the properties
    its specification states.

    Conventions of the embedding.
    - Python dicts are insertion-ordered association lists ([PyDict]).
    - A JSON file on disk is [Absent], [Corrupt] (not parseable) or holds a
      value ([Content]).
    - Python exceptions are values of [exn]; a function that may raise
      returns a [result].
    - Floating-point numbers are kept abstract: the code is written over an
      interface [Num] of scalar operations.  The few theorems that need
      algebraic laws (a maximum, an order-independent sum) ask for them
      explicitly ([NumOrder], [NumAdd]); they hold of exact arithmetic, and the
      rational instance [QNum] is used to run the code on concrete inputs.
    - The camera, the embedding network and the clock are inputs: a camera
      is the list of frames it will deliver, each frame carrying what
      [DeepFace.represent] answers on it. *)

From Stdlib Require Import String Ascii Bool Arith ZArith QArith Qabs Lia.
From Stdlib Require Import DecimalString DecimalNat List Permutation.
Import ListNotations.
Close Scope Q_scope.
Local Open Scope list_scope.

(* ------------------------------------------------------------------ *)
(** ** Python dicts *)

Module PyDict.

Section Dict.
Context {V : Type}.

Definition dict := list (string * V).

(** [d.get(k)] *)
Fixpoint dict_get (k : string) (d : dict) : option V :=
  match d with
  | [] => None
  | (k', v) :: d' => if String.eqb k' k then Some v else dict_get k d'
  end.

(** [d[k] = v]: an existing key keeps its position, a new key goes last. *)
Fixpoint dict_set (k : string) (v : V) (d : dict) : dict :=
  match d with
  | [] => [(k, v)]
  | (k', v') :: d' =>
      if String.eqb k' k then (k, v) :: d' else (k', v') :: dict_set k v d'
  end.

(** [d.update(new)] *)
Definition dict_update (d new : dict) : dict :=
  fold_left (fun acc kv => dict_set (fst kv) (snd kv) acc) new d.

Definition dict_keys (d : dict) : list string := map fst d.
Definition dict_values (d : dict) : list V := map snd d.

(** [k in d] *)
Definition dict_mem (k : string) (d : dict) : bool :=
  match dict_get k d with Some _ => true | None => false end.
End Dict.

Arguments dict V : clear implicits.

End PyDict.
Export PyDict.

(* ------------------------------------------------------------------ *)
(** ** Exceptions, results, files *)

Inductive exn : Type :=
| FileNotFoundError (msg : string)
| RuntimeError (msg : string)
| ValueError (msg : string)
| JSONDecodeError
| NameError (var : string)
| KeyError (key : string)
| IndexError
| DeepFaceError.

(** [json.JSONDecodeError] is a subclass of [ValueError]. *)
Definition is_ValueError (e : exn) : bool :=
  match e with
  | ValueError _ | JSONDecodeError => true
  | _ => false
  end.

(** [str(e)] for the exceptions whose text the code shows to a client. *)
Definition exn_str (e : exn) : string :=
  match e with
  | FileNotFoundError m | RuntimeError m | ValueError m => m
  | JSONDecodeError => "Expecting value"
  | NameError v => v
  | KeyError k => k
  | IndexError => "list index out of range"
  | DeepFaceError => "DeepFace"
  end.

Inductive result (A : Type) : Type :=
| Ok (a : A)
| Raise (e : exn).
Arguments Ok {A} a.
Arguments Raise {A} e.

Definition of_option {A} (e : exn) (o : option A) : result A :=
  match o with Some a => Ok a | None => Raise e end.

Inductive file (A : Type) : Type :=
| Absent
| Corrupt
| Content (a : A).
Arguments Absent {A}.
Arguments Corrupt {A}.
Arguments Content {A} a.

(* ------------------------------------------------------------------ *)
(** ** Scalars *)

(** The operations the code performs on floats.  [round4 x] is
    [round(x, 4)], [fmt4 x] is [f"{x:.4f}"], [fmt1 x] is [f"{x:.1f}"]. *)
Class Num (F : Type) : Type := {
  f0 : F;
  f1 : F;
  fadd : F -> F -> F;
  fsub : F -> F -> F;
  fmul : F -> F -> F;
  fdiv : F -> F -> F;
  fabs : F -> F;
  fsqrt : F -> F;
  feqb : F -> F -> bool;
  fltb : F -> F -> bool;
  of_nat : nat -> F;
  round4 : F -> F;
  fmt4 : F -> string;
  fmt1 : F -> string
}.

(** Laws of exact arithmetic used by some theorems: the order behind
    [np.argmax], and the addition behind [mean]. *)
Class NumOrder (F : Type) `{Num F} : Prop := {
  fltb_irrefl : forall a : F, fltb a a = false;
  fltb_trans : forall a b c : F,
      fltb a b = true -> fltb b c = true -> fltb a c = true
}.

Class NumAdd (F : Type) `{Num F} : Prop := {
  fadd_comm : forall a b : F, fadd a b = fadd b a;
  fadd_assoc : forall a b c : F, fadd a (fadd b c) = fadd (fadd a b) c
}.

(* ------------------------------------------------------------------ *)
(** ** numpy, scikit-learn and scipy on lists *)

Module Numeric.
Section Numeric.
Context {F : Type} `{Num F}.

Definition vec := list F.

Fixpoint map2 (f : F -> F -> F) (u v : vec) : vec :=
  match u, v with
  | x :: u', y :: v' => f x y :: map2 f u' v'
  | _, _ => []
  end.

Definition vadd : vec -> vec -> vec := map2 fadd.
Definition vsub : vec -> vec -> vec := map2 fsub.

(** [sum] of a 1-d array, accumulated from zero. *)
Definition fsum (v : vec) : F := fold_left fadd v f0.

(** A list of rows is a 2-d array when all rows have one length. *)
Definition rectangular (d : nat) (rows : list vec) : bool :=
  forallb (fun r => Nat.eqb (length r) d) rows.

(** [arr.sum(axis=0)] of a non-empty 2-d array, row after row. *)
Definition np_sum_axis0 (v0 : vec) (rest : list vec) : vec :=
  fold_left vadd rest v0.

(** [np.asarray(vecs, dtype="float32").mean(axis=0)].  [None] stands for
    the two cases without a mean vector: a ragged list, on which
    [np.asarray] raises [ValueError], and the empty list, whose "mean" is
    a 0-d NaN that the callers' next array operation rejects. *)
Definition np_mean_axis0 (vecs : list vec) : option vec :=
  match vecs with
  | [] => None
  | v0 :: rest =>
      if rectangular (length v0) rest
      then Some (map (fun s => fdiv s (of_nat (length vecs)))
                     (np_sum_axis0 v0 rest))
      else None
  end.

(** [sklearn.utils.extmath.row_norms]: the Euclidean norm of a row. *)
Definition row_norm (v : vec) : F :=
  fsqrt (fsum (map (fun x => fmul x x) v)).

(** [_handle_zeros_in_scale]: a zero norm is replaced by one (recent
    releases of scikit-learn do the same to norms below ten machine
    epsilons). *)
Definition handle_zeros (n : F) : F := if feqb n f0 then f1 else n.

(** [sklearn.preprocessing.normalize(norm="l2")] on one row. *)
Definition l2_normalize (v : vec) : vec :=
  map (fun x => fdiv x (handle_zeros (row_norm v))) v.

(** [check_array]: a 2-d array with at least one row and one column.  The
    first test is the one [np.asarray] makes when the rows are put
    together: rows of different lengths raise [ValueError]. *)
Definition check_array (X : list vec) : result (list vec) :=
  match X with
  | [] => Raise (ValueError "Found array with 0 sample(s)")
  | r :: rest =>
      if negb (rectangular (length r) rest)
      then Raise (ValueError "inhomogeneous shape")
      else if Nat.eqb (length r) 0
      then Raise (ValueError "Found array with 0 feature(s)")
      else Ok X
  end.

(** [Normalizer(norm="l2").transform(X)] *)
Definition Normalizer_transform (X : list vec) : result (list vec) :=
  match check_array X with
  | Ok X' => Ok (map l2_normalize X')
  | Raise e => Raise e
  end.

(** [X @ Y.T] for one row of each. *)
Definition dot (u v : vec) : F := fsum (map2 fmul u v).

(** [sklearn.metrics.pairwise.cosine_similarity(X, Y)[0]] for a one-row
    [X]: both sides are L2-normalised again, then multiplied. *)
Definition cosine_similarity (x : vec) (Y : list vec) : result (list F) :=
  if rectangular (length x) Y
  then Ok (map (fun y => dot (l2_normalize x) (l2_normalize y)) Y)
  else Raise (ValueError "Incompatible dimension for X and Y matrices").

(** [scipy.spatial.distance.euclidean] *)
Definition euclidean (u v : vec) : F :=
  fsqrt (fsum (map (fun d => fmul d d) (vsub u v))).

(** [scipy.spatial.distance.cityblock] *)
Definition cityblock (u v : vec) : F :=
  fsum (map fabs (vsub u v)).

(** [np.argmax]: the first index holding the greatest value. *)
Fixpoint argmax_from (best_i : nat) (best : F) (i : nat) (l : list F) : nat :=
  match l with
  | [] => best_i
  | x :: l' =>
      if fltb best x then argmax_from i x (S i) l'
      else argmax_from best_i best (S i) l'
  end.

Definition np_argmax (l : list F) : result nat :=
  match l with
  | [] => Raise (ValueError "attempt to get argmax of an empty sequence")
  | x :: l' => Ok (argmax_from 0 x 1 l')
  end.

End Numeric.
End Numeric.
Export Numeric.

(* ------------------------------------------------------------------ *)
(** ** The persisted state *)

(** What [DeepFace.represent] answers on one image: it raises, it returns
    nothing with an ["embedding"] key, or it returns an embedding. *)
Inductive rep_result {F : Type} : Type :=
| RepRaise
| RepNoEmbedding
| RepEmbedding (v : list F).
Arguments rep_result F : clear implicits.

(** Values held by the decision dict. *)
Inductive pyval {F : Type} : Type :=
| PNone
| PStr (s : string)
| PScores (d : dict F).
Arguments pyval F : clear implicits.

(** embeddings.json: name -> list of vectors *)
Definition embed_db (F : Type) := dict (list (list F)).
(** users.json: user_id -> name (stored as [{"name": name}]) *)
Definition users_db := dict string.
(** one access decision, and access_log.json *)
Definition decision (F : Type) := dict (pyval F).
Definition access_log (F : Type) := list (decision F).

(** The three JSON files of config.py.  The dataset folders are not part of
    this record: a folder appears where it is read, as the argument of
    [compute_embeddings_for_folder]. *)
Record files {F : Type} : Type := mkFiles {
  users_file : file users_db;
  embed_file : file (embed_db F);
  log_file : file (access_log F)
}.
Arguments files F : clear implicits.
Arguments mkFiles {F} _ _ _.

(** The entry of a name in embeddings.json, when the file can be read. *)
Definition stored {F} (fs : files F) (name : string) : option (list (list F)) :=
  match embed_file fs with
  | Content db => dict_get name db
  | _ => None
  end.

(* ------------------------------------------------------------------ *)
(** ** backend/embedding_manager.py *)

Module EmbeddingManager.
Section EmbeddingManager.
Context {F : Type} `{Num F}.

(** A folder is [None] when it does not exist, else the answers of
    [DeepFace.represent] on its images in sorted order. *)
Definition compute_embeddings_for_folder
    (folder : option (list (rep_result F))) : list (list F) :=
  match folder with
  | None => []
  | Some images =>
      fold_left
        (fun out r =>
           match r with
           | RepEmbedding v => out ++ [v]
           | RepNoEmbedding => out
           | RepRaise => out
           end)
        images []
  end.

Definition average_embeddings (embeddings : list (list F))
    : result (list (list F)) :=
  match embeddings with
  | [] => Ok []
  | _ :: _ =>
      match np_mean_axis0 embeddings with
      | Some mean_vec => Ok [mean_vec]
      | None => Raise (ValueError "inhomogeneous shape")
      end
  end.

Definition save_user_embeddings (user_name : string)
    (embeddings : list (list F)) (fs : files F) : nat * files F :=
  match embeddings with
  | [] => (0, fs)
  | _ :: _ =>
      let db :=
        match embed_file fs with
        | Content db => db
        | Corrupt => []
        | Absent => []
        end in
      (length embeddings,
       mkFiles (users_file fs)
               (Content (dict_set user_name embeddings db))
               (log_file fs))
  end.

Definition generate_and_save_embeddings_for_user (user_name : string)
    (cropped_folder : option (list (rep_result F))) (fs : files F)
    : result unit * files F :=
  let embs := compute_embeddings_for_folder cropped_folder in
  match average_embeddings embs with
  | Raise e => (Raise e, fs)
  | Ok embs' =>
      let (saved, fs') := save_user_embeddings user_name embs' fs in
      (Ok tt, fs')
  end.

End EmbeddingManager.
End EmbeddingManager.
Export EmbeddingManager.

(* ------------------------------------------------------------------ *)
(** ** backend/user_manager.py *)

Module UserManager.
Section UserManager.
Context {F : Type}.
(** [str.lower] *)
Variable lower : string -> string.

(** [_read_json(path, default)]: a missing file is first created. *)
Definition _read_json {A} (f : file A) (default : A) : result A * file A :=
  match f with
  | Absent => (Ok default, Content default)
  | Corrupt => (Raise JSONDecodeError, Corrupt)
  | Content a => (Ok a, Content a)
  end.

Definition _write_json {A} (data : A) : file A := Content data.

Definition list_users (fs : files F) : result users_db * files F :=
  let (r, f') := _read_json (users_file fs) [] in
  (r, mkFiles f' (embed_file fs) (log_file fs)).

Definition already_exists (name : string) : string :=
  ("User '" ++ name ++ "' already exists.")%string.

(** [user_id] is the fresh [str(uuid.uuid4())[:8]]. *)
Definition add_user_record (name user_id : string) (fs : files F)
    : result string * files F :=
  match list_users fs with
  | (Raise e, fs') => (Raise e, fs')
  | (Ok users, fs') =>
      if existsb (fun info => String.eqb (lower info) (lower name))
                 (dict_values users)
      then (Raise (ValueError (already_exists name)), fs')
      else
        (Ok user_id,
         mkFiles (_write_json (dict_set user_id name users))
                 (embed_file fs') (log_file fs'))
  end.

End UserManager.
End UserManager.
Export UserManager.

(* ------------------------------------------------------------------ *)
(** ** backend/face_recognition.py *)

(** One camera frame: what [DeepFace.represent] answers on its crop, and
    what [cv2.waitKey(1)] returns while it is displayed. *)
Record frame {F : Type} : Type := mkFrame {
  rep : rep_result F;
  key : Z
}.
Arguments frame F : clear implicits.
Arguments mkFrame {F} _ _.

(** A camera is [None] when it cannot be opened, else the frames it will
    deliver; [cap.read()] fails once they are exhausted. *)
Definition camera (F : Type) := option (list (frame F)).

Module FaceRecognition.
Section FaceRecognition.
Context {F : Type} `{Num F}.

(** [config.SIMILARITY_THRESHOLD], when the environment does not override
    it: 0.50 *)
Definition SIMILARITY_THRESHOLD : F := fdiv (of_nat 50) (of_nat 100).

(** The loop of lines 42-45: the mean vector of every name, in order. *)
Fixpoint mean_rows (db : embed_db F) (names : list string)
    : result (list (list F)) :=
  match names with
  | [] => Ok []
  | name :: names' =>
      match dict_get name db with
      | None => Raise (KeyError name)
      | Some vecs =>
          match np_mean_axis0 vecs with
          | None => Raise (ValueError "inhomogeneous shape")
          | Some mean_vec =>
              match mean_rows db names' with
              | Ok mat => Ok (mean_vec :: mat)
              | Raise e => Raise e
              end
          end
      end
  end.

(** A missing file raises [FileNotFoundError], an unparseable one
    [JSONDecodeError], an empty dict [RuntimeError]; rows that do not form
    a matrix raise [ValueError] in [np.asarray] or in the normaliser. *)
Definition _load_db (f : file (embed_db F))
    : result (list string * list (list F)) :=
  match f with
  | Absent =>
      Raise (FileNotFoundError
               "No embeddings.json found. Please register users first.")
  | Corrupt => Raise JSONDecodeError
  | Content [] =>
      Raise (RuntimeError "embeddings.json is empty. Register users first.")
  | Content db =>
      let names := dict_keys db in
      match mean_rows db names with
      | Raise e => Raise e
      | Ok mat =>
          match Normalizer_transform mat with
          | Raise e => Raise e
          | Ok mat' => Ok (names, mat')
          end
      end
  end.

(** The variables of [verify_face_live] that live across loop
    iterations: the decision dict, and [max_idx], unbound until a frame
    yields an embedding. *)
Record locals : Type := mkLocals {
  l_decision : decision F;
  max_idx : option nat
}.

(** State and exceptions of the loop body. *)
Definition M (A : Type) : Type := locals -> result A * locals.

Definition ret {A} (a : A) : M A := fun st => (Ok a, st).
Definition bind {A B} (c : M A) (k : A -> M B) : M B :=
  fun st =>
    match c st with
    | (Ok a, st') => k a st'
    | (Raise e, st') => (Raise e, st')
    end.
Definition lift {A} (r : result A) : M A := fun st => (r, st).
Definition set_max_idx (i : nat) : M unit :=
  fun st => (Ok tt, mkLocals (l_decision st) (Some i)).
(** reading [max_idx]: a [NameError] while it is unbound *)
Definition get_max_idx : M nat :=
  fun st => (of_option (NameError "max_idx") (max_idx st), st).
(** [decision[k] = v] *)
Definition decision_set (k : string) (v : pyval F) : M unit :=
  fun st => (Ok tt, mkLocals (dict_set k v (l_decision st)) (max_idx st)).
(** [decision.update(new)] *)
Definition decision_update (new : decision F) : M unit :=
  fun st => (Ok tt, mkLocals (dict_update (l_decision st) new) (max_idx st)).

Notation "x <- c ;; k" := (bind c (fun x => k))
  (at level 61, c at next level, right associativity).
Notation "c ;;; k" := (bind c (fun _ => k))
  (at level 61, right associativity).

Section Loop.
Variables (names : list string) (db_embeds : list (list F)).
Variables (threshold : F) (show_window : bool).

(** Lines 126-142: score an extracted embedding; the result is
    [cos_score]. *)
Definition score_embedding (embedding : list F) : M F :=
  emb2d <- lift (Normalizer_transform [embedding]) ;;
  emb <- lift (of_option IndexError (nth_error emb2d 0)) ;;
  sims <- lift (cosine_similarity emb db_embeds) ;;
  idx <- lift (np_argmax sims) ;;
  set_max_idx idx ;;;
  target_vec <- lift (of_option IndexError (nth_error db_embeds idx)) ;;
  cos_score <- lift (of_option IndexError (nth_error sims idx)) ;;
  let euclid_score := fdiv f1 (fadd f1 (euclidean emb target_vec)) in
  let manhattan_score := fdiv f1 (fadd f1 (cityblock emb target_vec)) in
  decision_set "scores"
    (PScores [("cosine"%string, round4 cos_score);
              ("euclidean"%string, round4 euclid_score);
              ("manhattan"%string, round4 manhattan_score)]) ;;;
  ret cos_score.

Definition granted_label (name : string) (confidence : F) : string :=
  (name ++ " (" ++ fmt1 (fmul confidence (of_nat 100)) ++ "%)")%string.

(** The [try] block of one iteration; the result is
    [(confidence, label)]. *)
Definition try_block (r : rep_result F) : M (F * string) :=
  confidence <-
    match r with
    | RepRaise => lift (Raise DeepFaceError)
    | RepEmbedding embedding => score_embedding embedding
    | RepNoEmbedding => ret f0
    end ;;
  if fltb threshold confidence then
    idx <- get_max_idx ;;
    name <- lift (of_option IndexError (nth_error names idx)) ;;
    decision_update [("status"%string, PStr "granted");
                     ("name"%string, PStr name);
                     ("confidence"%string, PStr (fmt4 confidence))] ;;;
    ret (confidence, granted_label name confidence)
  else
    decision_update [("status"%string, PStr "denied");
                     ("name"%string, PStr "Unknown");
                     ("confidence"%string, PStr (fmt4 confidence))] ;;;
    ret (confidence, "Access Denied"%string).

(** [try: ... except Exception: ...] *)
Definition iteration (r : rep_result F) (st : locals)
    : (F * string) * locals :=
  match try_block r st with
  | (Ok cl, st') => (cl, st')
  | (Raise _, st') => ((f0, "No Face / Error"%string), st')
  end.

(** [needle in hay] *)
Definition contains (needle hay : string) : bool :=
  match String.index 0 needle hay with
  | Some _ => true
  | None => false
  end.

(** [cv2.waitKey(1) & 0xFF == ord("q")] *)
Definition pressed_q (k : Z) : bool := Z.eqb (Z.land k 255) 113.

(** The [while True] loop, on the frames the camera still holds.  It
    returns the locals at the exit and the frames left unread. *)
Fixpoint capture_loop (frames : list (frame F)) (st : locals)
    : locals * list (frame F) :=
  match frames with
  | [] => (st, [])
  | fr :: frames' =>
      let '((confidence, label), st') := iteration (rep fr) st in
      if show_window && pressed_q (key fr) then (st', frames')
      else if fltb f0 confidence || contains "Unknown" label
      then (st', frames')
      else capture_loop frames' st'
  end.
End Loop.

Definition _convert_json_safe_val (v : pyval F) : pyval F :=
  match v with
  | PScores d => PScores (map (fun kv => (fst kv, snd kv)) d)
  | PStr s => PStr s
  | PNone => PNone
  end.

Definition _convert_json_safe (d : decision F) : decision F :=
  map (fun kv => (fst kv, _convert_json_safe_val (snd kv))) d.

(** Lines 192-202: append to access_log.json; any failure is caught and
    leaves the file as it was. *)
Definition log_decision (d : decision F) (f : file (access_log F))
    : file (access_log F) :=
  match f with
  | Content log => Content (log ++ [d])
  | Absent => Content ([] ++ [d])
  | Corrupt => Corrupt
  end.

Definition initial_decision (now : string) : decision F :=
  [("status"%string, PStr "denied");
   ("name"%string, PNone);
   ("confidence"%string, PStr "0.00");
   ("scores"%string, PScores []);
   ("time"%string, PStr now)].

(** [now] is [datetime.now().isoformat()].  The result is the returned
    decision or the exception raised, with the files and the camera
    after the call. *)
Definition verify_face_live (threshold : F) (show_window : bool)
    (now : string) (cap : camera F) (fs : files F)
    : result (decision F) * files F * camera F :=
  match _load_db (embed_file fs) with
  | Raise e => (Raise e, fs, cap)
  | Ok (names, db_embeds) =>
      match cap with
      | None => (Raise (RuntimeError "Could not access webcam."), fs, cap)
      | Some frames =>
          let '(st, rest) :=
            capture_loop names db_embeds threshold show_window frames
              (mkLocals (initial_decision now) None) in
          let d := _convert_json_safe (l_decision st) in
          (Ok d,
           mkFiles (users_file fs) (embed_file fs)
                   (log_decision d (log_file fs)),
           Some rest)
      end
  end.

End FaceRecognition.
Arguments locals F : clear implicits.
End FaceRecognition.
Export FaceRecognition.

(* ------------------------------------------------------------------ *)
(** ** api.py *)

Inductive job_status : Type := Processing | Completed | Failed.

(** The string under the ["status"] key of a job entry. *)
Definition status_str (s : job_status) : string :=
  match s with
  | Processing => "processing"
  | Completed => "completed"
  | Failed => "failed"
  end.

(** What [photo_capture.capture_user_images] does: it raises (no camera),
    or it returns the number of frames captured, leaving a cropped folder
    for the embedding step to read. *)
Inductive capture_result {F : Type} : Type :=
| CaptureRaise
| Captured (n : nat) (cropped_dir : option (list (rep_result F))).
Arguments capture_result F : clear implicits.

(** The answers of the /register route. *)
Inductive response : Type :=
| Started (name user_id : string)
| Error400 (error : string)
| Error500.

(** The process-wide state of the server: the files and the job map. *)
Record server {F : Type} : Type := mkServer {
  store : files F;
  registration_status : dict job_status
}.
Arguments server F : clear implicits.
Arguments mkServer {F} _ _.

Module Api.
Section Api.
Context {F : Type} `{Num F}.
Variable lower : string -> string.

(** The synchronous part of /register.  [form_name] is
    [request.form.get("name")]; the third component is the name handed to
    a background thread, if one is started. *)
Definition register_user (form_name : option string) (user_id : string)
    (srv : server F) : response * server F * option string :=
  match form_name with
  | None => (Error400 "Missing 'name' field", srv, None)
  | Some EmptyString => (Error400 "Missing 'name' field", srv, None)
  | Some name =>
      match add_user_record lower name user_id (store srv) with
      | (Raise e, fs') =>
          (if is_ValueError e then Error400 (exn_str e) else Error500,
           mkServer fs' (registration_status srv), None)
      | (Ok uid, fs') =>
          (Started name uid,
           mkServer fs' (dict_set name Processing (registration_status srv)),
           Some name)
      end
  end.

(** The background thread of /register. *)
Definition process_registration (name : string)
    (capture : capture_result F) (srv : server F) : server F :=
  match capture with
  | CaptureRaise =>
      mkServer (store srv) (dict_set name Failed (registration_status srv))
  | Captured n cropped_dir =>
      if Nat.eqb n 0
      then mkServer (store srv)
                    (dict_set name Failed (registration_status srv))
      else
        match generate_and_save_embeddings_for_user name cropped_dir
                (store srv) with
        | (Ok _, fs') =>
            mkServer fs' (dict_set name Completed (registration_status srv))
        | (Raise _, fs') =>
            mkServer fs' (dict_set name Failed (registration_status srv))
        end
  end.

(** /status/<name> *)
Definition registration_status_check (name : string) (srv : server F)
    : string :=
  match dict_get name (registration_status srv) with
  | None => "unknown"
  | Some s => status_str s
  end.

End Api.
End Api.
Export Api.

(* ------------------------------------------------------------------ *)
(** ** Exact rational scalars

    The instance used to run the code: rationals in lowest terms, with the
    square root truncated to eight decimals (it is exact on squares of
    rationals) and the two format strings done in decimal arithmetic. *)

Module QNumDefs.

Definition qadd (a b : Q) : Q := Qred (a + b)%Q.
Definition qsub (a b : Q) : Q := Qred (a - b)%Q.
Definition qmul (a b : Q) : Q := Qred (a * b)%Q.
Definition qdiv (a b : Q) : Q := Qred (a / b)%Q.
Definition qabs (a : Q) : Q := Qred (Qabs a).
Definition qltb (a b : Q) : bool := negb (Qle_bool b a).
Definition q_of_nat (n : nat) : Q := inject_Z (Z.of_nat n).

Definition sqrt_scale : Z := 100000000.

Definition qsqrt (q : Q) : Q :=
  Qred (Qmake
          (Z.sqrt (Qnum q * Zpos (Qden q) * (sqrt_scale * sqrt_scale)))
          (Qden q * Z.to_pos sqrt_scale)).

(** The integer nearest to [q], ties to even. *)
Definition round_half_even (q : Q) : Z :=
  let n := Qnum q in
  let d := Zpos (Qden q) in
  let fl := (n / d)%Z in
  let r := (n mod d)%Z in
  match (2 * r ?= d)%Z with
  | Lt => fl
  | Gt => (fl + 1)%Z
  | Eq => if Z.even fl then fl else (fl + 1)%Z
  end.

Definition qround (digits : nat) (q : Q) : Q :=
  let s := (10 ^ Z.of_nat digits)%Z in
  Qred (Qmake (round_half_even (q * inject_Z s)%Q) (Z.to_pos s)).

Definition string_of_Z (z : Z) : string :=
  NilZero.string_of_uint (N.to_uint (Z.to_N z)).

Fixpoint pad_zeros (fuel width : nat) (s : string) : string :=
  match fuel with
  | O => s
  | S fuel' => if Nat.ltb (String.length s) width
               then pad_zeros fuel' width (String "0" s) else s
  end.

Definition pad_left (width : nat) (s : string) : string :=
  pad_zeros width width s.

(** [f"{q:.{digits}f}"] *)
Definition qfmt (digits : nat) (q : Q) : string :=
  let s := (10 ^ Z.of_nat digits)%Z in
  let n := Z.abs (round_half_even (q * inject_Z s)%Q) in
  ((if qltb q 0%Q then "-" else "")
     ++ string_of_Z (n / s) ++ "."
     ++ pad_left digits (string_of_Z (n mod s)))%string.

End QNumDefs.
Import QNumDefs.

#[export] Instance QNum : Num Q := {|
  f0 := 0%Q;
  f1 := 1%Q;
  fadd := qadd;
  fsub := qsub;
  fmul := qmul;
  fdiv := qdiv;
  fabs := qabs;
  fsqrt := qsqrt;
  feqb := Qeq_bool;
  fltb := qltb;
  of_nat := q_of_nat;
  round4 := qround 4;
  fmt4 := qfmt 4;
  fmt1 := qfmt 1
|}.

(** ASCII lower-casing, the instance of [str.lower] used in examples. *)
Definition ascii_lower (c : ascii) : ascii :=
  let n := nat_of_ascii c in
  if Nat.leb 65 n && Nat.leb n 90 then ascii_of_nat (n + 32) else c.

Fixpoint str_lower (s : string) : string :=
  match s with
  | EmptyString => EmptyString
  | String c s' => String (ascii_lower c) (str_lower s')
  end.

(* ------------------------------------------------------------------ *)
(** ** Notions of the specification *)

Module SpecWords.
Section SpecWords.
Context {F : Type} `{Num F}.

(** The sum of a non-empty sequence of numbers, first to last. *)
Definition total (xs : list F) : F :=
  match xs with
  | [] => f0
  | x :: xs' => fold_left fadd xs' x
  end.

(** "The component-wise arithmetic mean": component [j] of the mean of
    [vecs] is the sum of the components [j] divided by their number. *)
Definition component_mean (vecs : list (list F)) (j : nat) : F :=
  fdiv (total (map (fun v => nth j v f0) vecs)) (of_nat (length vecs)).

(** "A usable probe embedding": [DeepFace.represent] returned an
    embedding, and it has the dimension of the centroids. *)
Definition usable (db_embeds : list (list F)) (r : rep_result F) : bool :=
  match r with
  | RepEmbedding v => rectangular (length v) db_embeds
  | RepNoEmbedding => false
  | RepRaise => false
  end.

(** The keys of every decision dict. *)
Definition regular_keys : list string :=
  ["status"; "name"; "confidence"; "scores"; "time"]%string.

(** "An explicit error marker": a key beyond the regular ones, or a
    status that is neither granted nor denied. *)
Definition has_error_marker (d : decision F) : bool :=
  negb (forallb (fun k => existsb (String.eqb k) regular_keys) (dict_keys d))
  || match dict_get "status" d with
     | Some (PStr s) => negb (String.eqb s "granted" || String.eqb s "denied")
     | _ => true
     end.

(** The three scores of a probe against one centroid, by the formulas of
    the loop body. *)
Definition euclid_score_of (emb c : list F) : F :=
  fdiv f1 (fadd f1 (euclidean emb c)).
Definition manhattan_score_of (emb c : list F) : F :=
  fdiv f1 (fadd f1 (cityblock emb c)).

(** The decision left by an iteration that finds no embedding in the
    frame, under any threshold that zero does not exceed. *)
Definition probe_failure_decision (now : string) : decision F :=
  [("status"%string, PStr "denied");
   ("name"%string, PStr "Unknown");
   ("confidence"%string, PStr (fmt4 f0));
   ("scores"%string, PScores []);
   ("time"%string, PStr now)].

End SpecWords.
End SpecWords.
Export SpecWords.

(** Inputs used in the examples below. *)
Module Examples.

Definition ada : string := "Ada".
Definition bob : string := "Bob".

(** Two enrolled users with one stored vector each. *)
Definition two_users : files Q :=
  mkFiles (Content [("1a2b3c4d"%string, ada); ("5e6f7a8b"%string, bob)])
          (Content [(ada, [[1; 0]%Q]); (bob, [[-1; 0]%Q])])
          (Content []).

(** A registry with a user record for Ada and no embeddings yet. *)
Definition ada_enrolling : server Q :=
  mkServer (mkFiles (Content [("1a2b3c4d"%string, ada)])
                    (Content []) (Content []))
           [(ada, Processing)].

Definition no_key : Z := (-1)%Z.

End Examples.

(* ------------------------------------------------------------------ *)
(** ** The rest of backend/user_manager.py, main_console.py and api.py *)

Module PyDictDel.
Section Del.
Context {V : Type}.

(** [del d[k]]; the keys of a dict are unique, so this drops one entry. *)
Definition dict_del (k : string) (d : dict V) : dict V :=
  filter (fun kv => negb (String.eqb (fst kv) k)) d.

End Del.
End PyDictDel.
Export PyDictDel.

Module UserDeletion.
Section UserDeletion.
Context {F : Type}.
Variable lower : string -> string.

(** The search loop of [delete_user_record]: the id of the first record, in
    file order, whose id is [name_or_id] or whose name equals it up to
    case. *)
Fixpoint find_user (name_or_id : string) (users : users_db) : option string :=
  match users with
  | [] => None
  | (uid, name) :: users' =>
      if String.eqb uid name_or_id
         || String.eqb (lower name) (lower name_or_id)
      then Some uid
      else find_user name_or_id users'
  end.

(** The third component is the dataset folder the call removes when it
    exists: the one of the deleted user's name.  [if not target_id] also
    turns down a record whose id is the empty string. *)
Definition delete_user_record (name_or_id : string) (fs : files F)
    : result bool * files F * option string :=
  match list_users fs with
  | (Raise e, fs') => (Raise e, fs', None)
  | (Ok users, fs') =>
      match find_user name_or_id users with
      | None => (Ok false, fs', None)
      | Some EmptyString => (Ok false, fs', None)
      | Some target_id =>
          match dict_get target_id users with
          | None => (Raise (KeyError target_id), fs', None)
          | Some user_name =>
              let fs1 :=
                mkFiles (_write_json (dict_del target_id users))
                        (embed_file fs') (log_file fs') in
              match embed_file fs1 with
              | Absent => (Ok true, fs1, Some user_name)
              | Corrupt => (Raise JSONDecodeError, fs1, None)
              | Content embeds =>
                  (Ok true,
                   if dict_mem user_name embeds
                   then mkFiles (users_file fs1)
                                (_write_json (dict_del user_name embeds))
                                (log_file fs1)
                   else fs1,
                   Some user_name)
              end
          end
      end
  end.

End UserDeletion.
End UserDeletion.
Export UserDeletion.

Module Console.
Section Console.
Context {F : Type} `{Num F}.
Variable lower : string -> string.

(** [add_user_flow] of main_console.py; [name] is the line read, already
    stripped.  Only the [ValueError] of [add_user_record] is caught. *)
Definition add_user_flow (name user_id : string)
    (capture : capture_result F) (fs : files F) : result unit * files F :=
  match add_user_record lower name user_id fs with
  | (Raise e, fs') =>
      if is_ValueError e then (Ok tt, fs') else (Raise e, fs')
  | (Ok uid, fs') =>
      match capture with
      | CaptureRaise =>
          (Raise (RuntimeError
                    "Could not access webcam. Check permissions or device."),
           fs')
      | Captured n cropped_dir =>
          if Nat.eqb n 0 then (Ok tt, fs')
          else generate_and_save_embeddings_for_user name cropped_dir fs'
      end
  end.

End Console.
End Console.
Export Console.


Module Routes.
Section Routes.
Context {F : Type} `{Num F}.
Variable lower : string -> string.



End Routes.
End Routes.
Export Routes.

(* ------------------------------------------------------------------ *)
(** ** backend/photo_capture.py *)

(** A face rectangle [(x, y, w, h)] of [detectMultiScale]. *)
Definition face_box : Type := (Z * Z * Z * Z)%type.

Module PhotoCapture.
Section PhotoCapture.
(** Images are opaque; the OpenCV calls are parameters: the cascade, the
    slice [img[y:y+h, x:x+w]], and colour conversion followed by
    [cv2.resize] to [FACE_SIZE]. *)
Variable Img : Type.
Variable detectMultiScale : Img -> list face_box.
Variable sub_image : Img -> face_box -> Img.
Variable to_rgb_resized : Img -> Img.

(** [lambda f: f[2]*f[3]] *)
Definition face_area (f : face_box) : Z :=
  let '(_, _, w, h) := f in (w * h)%Z.

(** [sorted(faces, key=..., reverse=True)]: by decreasing key, faces of
    equal key in their original order. *)
Fixpoint insert_by_area (f : face_box) (sorted : list face_box)
    : list face_box :=
  match sorted with
  | [] => [f]
  | g :: sorted' =>
      if Z.ltb (face_area f) (face_area g)
      then g :: insert_by_area f sorted'
      else f :: g :: sorted'
  end.

Definition sorted_by_area_desc (faces : list face_box) : list face_box :=
  fold_right insert_by_area [] faces.

(** The face [_crop_largest_face] crops to, if any face is detected. *)
Definition largest_face (faces : list face_box) : option face_box :=
  match faces with
  | [] => None
  | _ :: _ => nth_error (sorted_by_area_desc faces) 0
  end.

(** [_crop_largest_face], the same in photo_capture.py and in
    face_recognition.py. *)
Definition _crop_largest_face (img_bgr : Img) : Img :=
  match largest_face (detectMultiScale img_bgr) with
  | None => to_rgb_resized img_bgr
  | Some f => to_rgb_resized (sub_image img_bgr f)
  end.

(** The two folders of a user under the dataset directory: file name to
    image. *)
Record user_dirs : Type := mkDirs {
  raw_dir : dict Img;
  cropped_dir : dict Img
}.

Definition dataset : Type := dict user_dirs.

(** [mkdir(parents=True, exist_ok=True)] on both folders. *)
Definition _ensure_user_dirs (user_name : string) (ds : dataset) : dataset :=
  match dict_get user_name ds with
  | Some _ => ds
  | None => dict_set user_name (mkDirs [] []) ds
  end.

(** [str(n)] *)
Definition str_of_nat (n : nat) : string :=
  NilEmpty.string_of_uint (Nat.to_uint n).

(** [f"img_{i+1}.jpg"] *)
Definition img_name (i : nat) : string :=
  ("img_" ++ str_of_nat (i + 1) ++ ".jpg")%string.

(** The [for i in range(num_images)] loop from index [i] on, with [todo]
    rounds left.  It returns the folders, the count and the frames left
    in the camera.  A file holds the image written to it: the conversion
    back to BGR before [cv2.imwrite] only restores the channel order the
    file format wants. *)
Fixpoint capture_frames (i todo : nat) (frames : list Img)
    (dirs : user_dirs) (count : nat) : user_dirs * nat * list Img :=
  match todo with
  | O => (dirs, count, frames)
  | S todo' =>
      match frames with
      | [] => (dirs, count, [])
      | frame :: frames' =>
          capture_frames (S i) todo' frames'
            (mkDirs (dict_set (img_name i) frame (raw_dir dirs))
                    (dict_set (img_name i) (_crop_largest_face frame)
                              (cropped_dir dirs)))
            (S count)
      end
  end.

(** [capture_user_images]: the count returned or the exception, the
    dataset and the camera after the call.  A camera is [None] when it
    cannot be opened. *)
Definition capture_user_images (user_name : string) (num_images : Z)
    (cap : option (list Img)) (ds : dataset)
    : result nat * dataset * option (list Img) :=
  let ds1 := _ensure_user_dirs user_name ds in
  match cap with
  | None =>
      (Raise (RuntimeError
                "Could not access webcam. Check permissions or device."),
       ds1, None)
  | Some frames =>
      match dict_get user_name ds1 with
      | None => (Raise (FileNotFoundError user_name), ds1, cap)
      | Some dirs =>
          let '(dirs', count, rest) :=
            capture_frames 0 (Z.to_nat num_images) frames dirs 0 in
          (Ok count, dict_set user_name dirs' ds1, Some rest)
      end
  end.

End PhotoCapture.
Arguments mkDirs {Img} _ _.
Arguments raw_dir {Img} _.
Arguments cropped_dir {Img} _.
End PhotoCapture.
Export PhotoCapture.

(* ------------------------------------------------------------------ *)
(** ** The shape of a decision *)

Module DecisionShape.
Section DecisionShape.
Context {F : Type}.

(** What every decision of [verify_face_live] looks like, for the
    enrolled [names] and the timestamp [now]: the five keys; the time; a
    printed confidence; no scores or the three scores; and either a denial
    whose name is [None] or "Unknown", or a grant whose name is
    enrolled. *)
Definition decision_ok (names : list string) (now : string)
    (d : decision F) : Prop :=
  dict_keys d = regular_keys /\
  dict_get "time" d = Some (PStr now) /\
  (exists c, dict_get "confidence" d = Some (PStr c)) /\
  (exists sc, dict_get "scores" d = Some (PScores sc) /\
              (sc = [] \/
               dict_keys sc = ["cosine"; "euclidean"; "manhattan"]%string)) /\
  ((dict_get "status" d = Some (PStr "denied") /\
    (dict_get "name" d = Some PNone \/
     dict_get "name" d = Some (PStr "Unknown"))) \/
   (dict_get "status" d = Some (PStr "granted") /\
    exists n, dict_get "name" d = Some (PStr n) /\ In n names)).

End DecisionShape.
End DecisionShape.
Export DecisionShape.

(** More inputs for examples. *)
Module MoreExamples.

(** A server whose two users finished their registration. *)
Definition office : server Q :=
  mkServer Examples.two_users
           [(Examples.ada, Completed); (Examples.bob, Completed)].

(** A store in which Bob's two vectors have different lengths. *)
Definition ragged_store : files Q :=
  mkFiles (Content [("1a2b3c4d"%string, Examples.ada);
                    ("5e6f7a8b"%string, Examples.bob)])
          (Content [(Examples.ada, [[1; 0]%Q]);
                    (Examples.bob, [[0; 1]%Q; [1]%Q])])
          (Content []).

(** Images as numbers; a detector that finds three faces in image 7 and
    none elsewhere; a crop tagged by the area kept. *)
Definition detect_demo (img : nat) : list face_box :=
  if Nat.eqb img 7
  then [(0, 0, 10, 10)%Z; (5, 5, 20, 20)%Z; (40, 0, 20, 20)%Z]
  else [].
Definition sub_image_demo (img : nat) (f : face_box) : nat :=
  img + Z.to_nat (face_area f).
Definition resize_demo (img : nat) : nat := 1000 + img.

(** The decision of a run on Ada and Bob whose frame scores 0.6 with Ada. *)
Definition granted_ada : decision Q :=
  [("status"%string, PStr "granted");
   ("name"%string, PStr "Ada");
   ("confidence"%string, PStr "0.6000");
   ("scores"%string,
    PScores [("cosine"%string, (3 # 5)%Q);
             ("euclidean"%string, (5279 # 10000)%Q);
             ("manhattan"%string, (909 # 2000)%Q)]);
   ("time"%string, PStr "t")].

End MoreExamples.

(* ================================================================== *)
(** * Properties *)

(** ** Dicts *)

Section DictFacts.
Context {V : Type}.
Implicit Types (d : dict V) (k : string) (v : V).

Lemma dict_get_set_same k v d : dict_get k (dict_set k v d) = Some v.
Proof.
  induction d as [|[k' v'] d IH]; simpl.
  - now rewrite String.eqb_refl.
  - destruct (String.eqb k' k) eqn:E; simpl.
    + now rewrite String.eqb_refl.
    + now rewrite E.
Qed.

Lemma dict_get_set_other k k' v d :
  k' <> k -> dict_get k' (dict_set k v d) = dict_get k' d.
Proof.
  intros Hne.
  induction d as [|[k0 v0] d IH]; simpl.
  - destruct (String.eqb k k') eqn:E; [|reflexivity].
    apply String.eqb_eq in E. congruence.
  - destruct (String.eqb k0 k) eqn:E; simpl.
    + apply String.eqb_eq in E. subst k0.
      destruct (String.eqb k k') eqn:E'; [|reflexivity].
      apply String.eqb_eq in E'. congruence.
    + now rewrite IH.
Qed.

End DictFacts.

(** ** Saving embeddings *)

Section SaveFacts.
Context {F : Type}.
Implicit Types (fs : files F) (vs : list (list F)).

(** C7. Saving an empty sequence of vectors for any name returns 0 (zero
    vectors saved) and leaves every file as it was; in particular the
    entry already stored for that name is neither deleted nor altered. *)
Theorem C7_save_empty_is_noop (name : string) fs :
  save_user_embeddings name [] fs = (0, fs) /\
  stored (snd (save_user_embeddings name [] fs)) name = stored fs name.
Proof. split; reflexivity. Qed.

(** C10. Saving a non-empty sequence of vectors for a name replaces the
    entry of that name only: the vectors stored for every other name are
    as before, and users.json and access_log.json are not touched. *)
Theorem C10_save_frame (name : string) vs fs :
  vs <> [] ->
  let fs' := snd (save_user_embeddings name vs fs) in
  fst (save_user_embeddings name vs fs) = length vs /\
  stored fs' name = Some vs /\
  (forall other, other <> name -> stored fs' other = stored fs other) /\
  users_file fs' = users_file fs /\
  log_file fs' = log_file fs.
Proof.
  intros Hne. destruct vs as [|v vs]; [congruence|].
  unfold save_user_embeddings, stored; simpl.
  repeat split.
  - apply dict_get_set_same.
  - intros other Hother.
    rewrite dict_get_set_other by assumption.
    destruct (embed_file fs); reflexivity.
Qed.

End SaveFacts.

(** C10 at a concrete store: saving two vectors for Bob. *)
Lemma C10_save_frame_witness :
  let fs' := snd (save_user_embeddings Examples.bob [[0; 1]%Q; [0; 3]%Q]
                    Examples.two_users) in
  fst (save_user_embeddings Examples.bob [[0; 1]%Q; [0; 3]%Q]
         Examples.two_users) = 2 /\
  stored fs' Examples.bob = Some [[0; 1]%Q; [0; 3]%Q] /\
  (forall other, other <> Examples.bob ->
     stored fs' other = stored Examples.two_users other) /\
  users_file fs' = users_file Examples.two_users /\
  log_file fs' = log_file Examples.two_users.
Proof.
  apply (C10_save_frame Examples.bob [[0; 1]%Q; [0; 3]%Q] Examples.two_users).
  discriminate.
Defined.

(** ** Registering a name twice *)

Section DuplicateName.
Context {F : Type} `{Num F}.
Variable lower : string -> string.

Lemma existsb_same_lower (name : string) (users : users_db) :
  (exists user_id existing,
      In (user_id, existing) users /\ lower existing = lower name) ->
  existsb (fun info => String.eqb (lower info) (lower name))
          (dict_values users) = true.
Proof.
  intros (uid & nm & Hin & Hlow).
  apply existsb_exists. exists nm. split.
  - unfold dict_values. change nm with (snd (uid, nm)). now apply in_map.
  - rewrite Hlow. apply String.eqb_refl.
Qed.

(** C6. When the requested name equals the name of an existing record up
    to case, [add_user_record] raises the duplicate-name [ValueError]
    and writes nothing, and the /register request answers with a 400
    error at once: the server state, and so the job-status map, is as it
    was and no background job is started.  The error text is the
    duplicate-name message (an empty name is turned down one step
    earlier, as a missing field). *)
Theorem C6_duplicate_name_rejected
    (name user_id : string) (srv : server F) (users : users_db) :
  users_file (store srv) = Content users ->
  (exists uid existing,
      In (uid, existing) users /\ lower existing = lower name) ->
  add_user_record lower name user_id (store srv)
    = (Raise (ValueError (already_exists name)), store srv) /\
  register_user lower (Some name) user_id srv
    = (Error400 (if String.eqb name "" then "Missing 'name' field"
                 else already_exists name),
       srv, None) /\
  (forall n : string,
      dict_get n (registration_status
                    (snd (fst (register_user lower (Some name) user_id srv))))
      = dict_get n (registration_status srv)).
Proof.
  intros Hfile Hdup.
  assert (Hadd : add_user_record lower name user_id (store srv)
                 = (Raise (ValueError (already_exists name)), store srv)).
  { unfold add_user_record, list_users. rewrite Hfile. simpl.
    rewrite (existsb_same_lower _ _ Hdup).
    destruct srv as [[uf ef lf] st]; simpl in *. now subst uf. }
  assert (Hreg : register_user lower (Some name) user_id srv
                 = (Error400 (if String.eqb name "" then "Missing 'name' field"
                              else already_exists name), srv, None)).
  { unfold register_user. destruct name as [|c name']; [reflexivity|].
    rewrite Hadd. simpl. now destruct srv. }
  split; [exact Hadd|]. split; [exact Hreg|].
  intros n. now rewrite Hreg.
Qed.

End DuplicateName.

(** C6 at a concrete registry: "ADA" while "Ada" is registered. *)
Lemma C6_duplicate_name_rejected_witness :
  add_user_record str_lower "ADA" "9c0d1e2f" (store Examples.ada_enrolling)
    = (Raise (ValueError (already_exists "ADA")), store Examples.ada_enrolling) /\
  register_user str_lower (Some "ADA"%string) "9c0d1e2f" Examples.ada_enrolling
    = (Error400 (already_exists "ADA"), Examples.ada_enrolling, None) /\
  (forall n : string,
      dict_get n (registration_status
                    (snd (fst (register_user str_lower (Some "ADA"%string)
                                 "9c0d1e2f" Examples.ada_enrolling))))
      = dict_get n (registration_status Examples.ada_enrolling)).
Proof.
  apply (C6_duplicate_name_rejected str_lower "ADA" "9c0d1e2f"
           Examples.ada_enrolling [("1a2b3c4d"%string, Examples.ada)]).
  - reflexivity.
  - exists "1a2b3c4d"%string, Examples.ada. split; [left|]; reflexivity.
Defined.

(** ** Verification against an empty registry *)

Section EmptyRegistry.
Context {F : Type} `{Num F}.

(** Whatever makes the load fail, the run raises it before it opens the
    camera or writes anything. *)
Lemma verify_raises_when_load_fails
    (threshold : F) (show_window : bool) (now : string)
    (cap : camera F) (fs : files F) (e : exn) :
  _load_db (embed_file fs) = Raise e ->
  verify_face_live threshold show_window now cap fs = (Raise e, fs, cap).
Proof. intros Hload. unfold verify_face_live. now rewrite Hload. Qed.

(** C9. With no enrolled centroid (embeddings.json holds the empty dict,
    or is missing), a verification raises instead of returning a
    decision: a [RuntimeError], resp. [FileNotFoundError], and not a
    denial.  The files are left as they were, so no decision at all,
    granted or with a matched name or other, is appended to the log. *)
Theorem C9_empty_registry
    (threshold : F) (show_window : bool) (now : string)
    (cap : camera F) (fs : files F) :
  embed_file fs = Content [] \/ embed_file fs = Absent ->
  exists e,
    verify_face_live threshold show_window now cap fs = (Raise e, fs, cap) /\
    (e = RuntimeError "embeddings.json is empty. Register users first." \/
     e = FileNotFoundError
           "No embeddings.json found. Please register users first.") /\
    log_file (snd (fst (verify_face_live threshold show_window now cap fs)))
      = log_file fs.
Proof.
  intros [Hf|Hf]; unfold verify_face_live; rewrite Hf; simpl;
    eexists; (split; [reflexivity|]); (split; [|reflexivity]); auto.
Qed.

End EmptyRegistry.

(** C9 at a concrete state: a user record exists, no embeddings do. *)
Lemma C9_empty_registry_witness :
  exists e,
    verify_face_live SIMILARITY_THRESHOLD false "2024-01-01T00:00:00"
      (Some [mkFrame (RepEmbedding [1; 0]%Q) Examples.no_key])
      (store Examples.ada_enrolling)
    = (Raise e, store Examples.ada_enrolling,
       Some [mkFrame (RepEmbedding [1; 0]%Q) Examples.no_key]) /\
    (e = RuntimeError "embeddings.json is empty. Register users first." \/
     e = FileNotFoundError
           "No embeddings.json found. Please register users first.") /\
    log_file (snd (fst (verify_face_live SIMILARITY_THRESHOLD false
                          "2024-01-01T00:00:00"
                          (Some [mkFrame (RepEmbedding [1; 0]%Q) Examples.no_key])
                          (store Examples.ada_enrolling))))
      = log_file (store Examples.ada_enrolling).
Proof.
  apply (C9_empty_registry SIMILARITY_THRESHOLD false "2024-01-01T00:00:00"
           (Some [mkFrame (RepEmbedding [1; 0]%Q) Examples.no_key])
           (store Examples.ada_enrolling)).
  left. reflexivity.
Defined.

(** ** Vectors and means *)

Section VectorFacts.
Context {F : Type} `{Num F}.
Implicit Types (u v w r : list F) (vecs rest rows : list (list F)).

Lemma map2_length (f : F -> F -> F) u v :
  length (map2 f u v) = Nat.min (length u) (length v).
Proof.
  revert v. induction u as [|x u IH]; intros [|y v]; simpl; auto.
Qed.

Lemma map2_nth (f : F -> F -> F) u v j :
  j < length u -> j < length v ->
  nth j (map2 f u v) f0 = f (nth j u f0) (nth j v f0).
Proof.
  revert v j. induction u as [|x u IH]; intros [|y v] [|j]; simpl;
    intros Hu Hv; try lia; auto.
  apply IH; lia.
Qed.

Lemma l2_normalize_length v : length (l2_normalize v) = length v.
Proof. unfold l2_normalize. apply length_map. Qed.

Lemma rectangular_spec d rows :
  rectangular d rows = true <-> forall r, In r rows -> length r = d.
Proof.
  unfold rectangular. rewrite forallb_forall.
  split; intros Hall r Hr; specialize (Hall r Hr).
  - now apply Nat.eqb_eq.
  - now apply Nat.eqb_eq.
Qed.

Lemma rectangular_map_normalize d rows :
  rectangular d (map l2_normalize rows) = rectangular d rows.
Proof.
  unfold rectangular.
  induction rows as [|r rows IH]; simpl; [reflexivity|].
  now rewrite l2_normalize_length, IH.
Qed.

(** A rectangular sum has the width of its rows, and its components are
    the sums of the components. *)
Lemma np_sum_axis0_spec rest : forall v0,
  rectangular (length v0) rest = true ->
  length (np_sum_axis0 v0 rest) = length v0 /\
  forall j, j < length v0 ->
    nth j (np_sum_axis0 v0 rest) f0
    = fold_left fadd (map (fun v => nth j v f0) rest) (nth j v0 f0).
Proof.
  unfold np_sum_axis0.
  induction rest as [|r rest IH]; intros v0 Hrect; simpl.
  - split; auto.
  - simpl in Hrect. apply andb_true_iff in Hrect as [Hr Hrest].
    apply Nat.eqb_eq in Hr.
    assert (Hlen : length (vadd v0 r) = length v0).
    { unfold vadd. rewrite map2_length, Hr. apply Nat.min_id. }
    destruct (IH (vadd v0 r)) as [IHlen IHnth].
    { now rewrite Hlen. }
    split; [congruence|].
    intros j Hj. rewrite IHnth by lia.
    unfold vadd at 1. rewrite map2_nth by lia. reflexivity.
Qed.

(** [np_mean_axis0] computes the component-wise arithmetic mean. *)
Lemma np_mean_axis0_component_mean vecs (m : list F) :
  np_mean_axis0 vecs = Some m ->
  vecs <> [] /\
  (forall v, In v vecs -> length v = length m) /\
  forall j, j < length m -> nth j m f0 = component_mean vecs j.
Proof.
  unfold np_mean_axis0. destruct vecs as [|v0 rest]; [discriminate|].
  destruct (rectangular (length v0) rest) eqn:Hrect; [|discriminate].
  intros [= <-].
  destruct (np_sum_axis0_spec rest v0 Hrect) as [Hlen Hnth].
  rewrite length_map, Hlen.
  split; [discriminate|]. split.
  - intros v [<-|Hin]; [reflexivity|].
    now apply (proj1 (rectangular_spec _ _) Hrect).
  - intros j Hj. unfold component_mean. simpl map. cbn [total].
    rewrite <- Hnth by assumption.
    rewrite (nth_indep _ f0 (fdiv f0 (of_nat (length (v0 :: rest)))))
      by (rewrite length_map; lia).
    now rewrite (map_nth (fun s => fdiv s (of_nat (length (v0 :: rest))))).
Qed.

End VectorFacts.

(** ** The registration job *)

Section Registration.
Context {F : Type} `{Num F}.
Implicit Types (srv : server F) (vs : list (list F)).

Lemma collect_embeddings (images : list (rep_result F)) (acc : list (list F)) :
  fold_left
    (fun out r =>
       match r with
       | RepEmbedding v => out ++ [v]
       | RepNoEmbedding => out
       | RepRaise => out
       end) images acc
  = acc ++ flat_map (fun r => match r with
                              | RepEmbedding v => [v]
                              | _ => []
                              end) images.
Proof.
  revert acc. induction images as [|r images IH]; intros acc; simpl.
  - now rewrite app_nil_r.
  - rewrite IH. destruct r; simpl; try reflexivity.
    now rewrite <- app_assoc.
Qed.

Lemma compute_embeddings_all_usable vs :
  compute_embeddings_for_folder (Some (map RepEmbedding vs)) = vs.
Proof.
  unfold compute_embeddings_for_folder. rewrite collect_embeddings. simpl.
  induction vs as [|v vs IH]; simpl; [reflexivity|]. now rewrite IH.
Qed.

(** A capture of zero frames, or a capture that raises, ends the job as
    failed and writes nothing. *)
Lemma registration_fails_without_samples (name : string) srv cropped_dir :
  process_registration name (Captured 0 cropped_dir) srv
    = mkServer (store srv) (dict_set name Failed (registration_status srv)) /\
  process_registration name CaptureRaise srv
    = mkServer (store srv) (dict_set name Failed (registration_status srv)).
Proof. split; reflexivity. Qed.

Lemma compute_embeddings_none_usable (images : list (rep_result F)) :
  (forall r, In r images -> r = RepNoEmbedding \/ r = RepRaise) ->
  compute_embeddings_for_folder (Some images) = [].
Proof.
  intros Hall. unfold compute_embeddings_for_folder.
  rewrite collect_embeddings. simpl.
  induction images as [|r images IH]; simpl; [reflexivity|].
  destruct (Hall r (or_introl eq_refl)) as [-> | ->]; simpl;
    apply IH; intros r' Hr'; apply Hall; now right.
Qed.

(** Where no captured image yields an embedding, the job is marked
    completed and no file is written. *)
Lemma registration_completes_without_embeddings
    (name : string) (n : nat) (images : list (rep_result F)) srv :
  n <> 0 ->
  (forall r, In r images -> r = RepNoEmbedding \/ r = RepRaise) ->
  process_registration name (Captured n (Some images)) srv
  = mkServer (store srv) (dict_set name Completed (registration_status srv)).
Proof.
  intros Hn Hall. unfold process_registration.
  destruct (Nat.eqb n 0) eqn:En; [apply Nat.eqb_eq in En; contradiction|].
  unfold generate_and_save_embeddings_for_user.
  now rewrite (compute_embeddings_none_usable _ Hall).
Qed.

(** C8, as the code has it.  After a registration that captures at least
    one sample, each sample yielding an embedding and all embeddings of
    one dimension, the job is completed and the entry stored for the name
    is a single vector: the component-wise mean [m] of the embeddings.
    The embeddings themselves are not kept. *)
Theorem C8_registration_stores_mean
    (name : string) (n : nat) vs (m : list F) srv :
  n <> 0 ->
  np_mean_axis0 vs = Some m ->
  let srv' := process_registration name
                (Captured n (Some (map RepEmbedding vs))) srv in
  stored (store srv') name = Some [m] /\
  (forall j, j < length m -> nth j m f0 = component_mean vs j) /\
  dict_get name (registration_status srv') = Some Completed.
Proof.
  intros Hn Hmean.
  destruct (np_mean_axis0_component_mean _ _ Hmean) as (_ & _ & Hcomp).
  unfold process_registration.
  destruct (Nat.eqb n 0) eqn:En; [apply Nat.eqb_eq in En; contradiction|].
  unfold generate_and_save_embeddings_for_user.
  rewrite compute_embeddings_all_usable.
  unfold average_embeddings. rewrite Hmean.
  destruct vs as [|v vs]; [discriminate|].
  simpl. split; [|split].
  - unfold stored; simpl. apply dict_get_set_same.
  - exact Hcomp.
  - apply dict_get_set_same.
Qed.

End Registration.

(** C2, where the code departs from it: three frames are captured and
    none yields an embedding.  Nothing is saved, there is no entry for the
    name, and the job is nevertheless marked completed. *)
Lemma C2_completed_without_embeddings :
  let srv' := process_registration Examples.ada
                (Captured 3 (Some [RepNoEmbedding; RepRaise; RepNoEmbedding]))
                Examples.ada_enrolling in
  dict_get Examples.ada (registration_status srv') = Some Completed /\
  registration_status_check Examples.ada srv' = "completed"%string /\
  stored (store srv') Examples.ada = None /\
  store srv' = store Examples.ada_enrolling.
Proof. repeat split. Qed.

(** C8 as stated fails: two samples, two embeddings, and the entry holds
    one vector, their mean, not the two vectors. *)
Lemma C8_counterexample :
  let srv' := process_registration Examples.ada
                (Captured 2 (Some [RepEmbedding [1; 0]%Q; RepEmbedding [0; 1]%Q]))
                Examples.ada_enrolling in
  stored (store srv') Examples.ada = Some [[(1 # 2)%Q; (1 # 2)%Q]] /\
  stored (store srv') Examples.ada <> Some [[1; 0]%Q; [0; 1]%Q] /\
  option_map (@length _) (stored (store srv') Examples.ada) <> Some 2.
Proof.
  split; [reflexivity|]. split; intros E; vm_compute in E; discriminate E.
Qed.

(** C8 on the same registration. *)
Lemma C8_registration_stores_mean_witness :
  let srv' := process_registration Examples.ada
                (Captured 2 (Some (map RepEmbedding [[1; 0]%Q; [0; 1]%Q])))
                Examples.ada_enrolling in
  stored (store srv') Examples.ada = Some [[(1 # 2)%Q; (1 # 2)%Q]] /\
  (forall j, j < length [(1 # 2)%Q; (1 # 2)%Q] ->
     nth j [(1 # 2)%Q; (1 # 2)%Q] f0
     = component_mean [[1; 0]%Q; [0; 1]%Q] j) /\
  dict_get Examples.ada (registration_status srv') = Some Completed.
Proof.
  apply (C8_registration_stores_mean Examples.ada 2 [[1; 0]%Q; [0; 1]%Q]
           [(1 # 2)%Q; (1 # 2)%Q] Examples.ada_enrolling).
  - discriminate.
  - reflexivity.
Defined.

(** The mean does not depend on the order of the vectors, when addition
    is commutative and associative. *)
Section MeanOrder.
Context {F : Type} `{NumAdd F}.
Implicit Types (u v w : list F) (vecs rest : list (list F)).







End MeanOrder.

(** ** Loading the centroids *)

Section LoadFacts.
Context {F : Type} `{Num F}.
Implicit Types (db : embed_db F) (mat : list (list F)).

Lemma mean_rows_spec db (names : list string) : forall mat,
  mean_rows db names = Ok mat ->
  forall i name, nth_error names i = Some name ->
    exists vecs m,
      dict_get name db = Some vecs /\
      np_mean_axis0 vecs = Some m /\
      nth_error mat i = Some m.
Proof.
  induction names as [|n names IH]; intros mat Hrows i name Hi.
  - destruct i; discriminate.
  - simpl in Hrows.
    destruct (dict_get n db) as [vecs|] eqn:Hget; [|discriminate].
    destruct (np_mean_axis0 vecs) as [m|] eqn:Hmean; [|discriminate].
    destruct (mean_rows db names) as [mat'|] eqn:Hrest; [|discriminate].
    injection Hrows as <-.
    destruct i as [|i]; simpl in Hi.
    + injection Hi as <-. now exists vecs, m.
    + apply (IH mat' eq_refl i name Hi).
Qed.

Lemma _load_db_inv db (names : list string) mat :
  _load_db (Content db) = Ok (names, mat) ->
  names = dict_keys db /\
  exists mat0,
    mean_rows db names = Ok mat0 /\
    check_array mat0 = Ok mat0 /\
    mat = map l2_normalize mat0.
Proof.
  unfold _load_db. destruct db as [|entry db]; [discriminate|].
  set (db' := entry :: db).
  destruct (mean_rows db' (dict_keys db')) as [mat0|] eqn:Hrows; [|discriminate].
  unfold Normalizer_transform.
  destruct (check_array mat0) as [mat1|] eqn:Hchk; [|discriminate].
  intros [= <- <-].
  assert (mat1 = mat0) as ->.
  { unfold check_array in Hchk. destruct mat0 as [|r rest]; [discriminate|].
    destruct (negb _); [discriminate|].
    destruct (Nat.eqb _ _); [discriminate|]. congruence. }
  split; [reflexivity|]. now exists mat0.
Qed.

(** What a successful load guarantees about the matrix of centroids. *)
Lemma _load_db_shape (f : file (embed_db F)) (names : list string) mat :
  _load_db f = Ok (names, mat) ->
  length mat = length names /\
  exists c0 mat', mat = c0 :: mat' /\ c0 <> [] /\
                  rectangular (length c0) mat' = true.
Proof.
  destruct f as [| |db]; try discriminate.
  intros Hload. destruct (_load_db_inv _ _ _ Hload) as (Hn & mat0 & Hrows & Hchk & ->).
  split.
  - rewrite length_map.
    clear Hchk Hload Hn. revert mat0 Hrows.
    induction names as [|n names IH]; intros mat0; simpl.
    + now intros [= <-].
    + destruct (dict_get n db); [|discriminate].
      destruct (np_mean_axis0 _); [|discriminate].
      destruct (mean_rows db names) as [m'|]; [|discriminate].
      intros [= <-]. simpl. f_equal. now apply IH.
  - unfold check_array in Hchk. destruct mat0 as [|r rest]; [discriminate|].
    destruct (rectangular (length r) rest) eqn:Hrect; [|discriminate].
    destruct (Nat.eqb (length r) 0) eqn:Hr; [discriminate|].
    exists (l2_normalize r), (map l2_normalize rest).
    split; [reflexivity|]. split.
    + intros E. apply (f_equal (@length _)) in E.
      rewrite l2_normalize_length in E. apply Nat.eqb_neq in Hr. now simpl in E.
    + now rewrite l2_normalize_length, rectangular_map_normalize.
Qed.

End LoadFacts.

(** ** [np.argmax] *)

Section ArgmaxRange.
Context {F : Type} `{Num F}.

Lemma argmax_from_range (l : list F) : forall bi b i,
  bi < i -> argmax_from bi b i l < i + length l.
Proof.
  induction l as [|x l IH]; intros bi b i Hlt; simpl.
  - lia.
  - destruct (fltb b x).
    + specialize (IH i x (S i)). lia.
    + specialize (IH bi b (S i)). lia.
Qed.

Lemma np_argmax_in_range (sims : list F) (idx : nat) :
  np_argmax sims = Ok idx -> idx < length sims.
Proof.
  destruct sims as [|x l]; [discriminate|]. simpl. intros [= <-].
  pose proof (argmax_from_range l 0 x 1). lia.
Qed.

Lemma np_argmax_total (sims : list F) :
  sims <> [] -> exists idx, np_argmax sims = Ok idx.
Proof. destruct sims; [congruence|]. intros _. simpl. eauto. Qed.
End ArgmaxRange.

Section ArgmaxMax.
Context {F : Type} `{NumOrder F}.


End ArgmaxMax.

(** ** One iteration of the verification loop *)

Section IterationFacts.
Context {F : Type} `{Num F}.
Implicit Types (st : locals F) (mat : list (list F)) (names : list string).

Lemma _convert_json_safe_id (d : decision F) : _convert_json_safe d = d.
Proof.
  unfold _convert_json_safe.
  induction d as [|[k v] d IH]; simpl; [reflexivity|].
  rewrite IH. f_equal. f_equal.
  destruct v as [| s | sc]; simpl; try reflexivity.
  f_equal. induction sc as [|[k' x] sc IHsc]; simpl; [reflexivity|].
  now rewrite IHsc.
Qed.


Lemma score_embedding_inv mat (embedding : list F) st (cos : F) st' :
  score_embedding mat embedding st = (Ok cos, st') ->
  exists sims idx target,
    embedding <> [] /\
    cosine_similarity (l2_normalize embedding) mat = Ok sims /\
    np_argmax sims = Ok idx /\
    nth_error mat idx = Some target /\
    nth_error sims idx = Some cos /\
    st' = mkLocals
            (dict_set "scores"
               (PScores
                  [("cosine"%string, round4 cos);
                   ("euclidean"%string,
                    round4 (euclid_score_of (l2_normalize embedding) target));
                   ("manhattan"%string,
                    round4 (manhattan_score_of (l2_normalize embedding) target))])
               (l_decision st))
            (Some idx).
Proof.
  unfold score_embedding, bind, lift, ret, set_max_idx, decision_set,
    Normalizer_transform, check_array.
  cbn [rectangular forallb negb].
  destruct (Nat.eqb (length embedding) 0) eqn:Hlen; [discriminate|].
  cbn [map nth_error of_option].
  destruct (cosine_similarity (l2_normalize embedding) mat) as [sims|] eqn:Hsims;
    [|discriminate].
  destruct (np_argmax sims) as [idx|] eqn:Hidx; [|discriminate].
  cbn [max_idx l_decision].
  destruct (nth_error mat idx) as [target|] eqn:Htarget; [|discriminate].
  destruct (nth_error sims idx) as [c|] eqn:Hc; [|discriminate].
  cbn [of_option max_idx l_decision]. intros [= <- <-].
  exists sims, idx, target. repeat split; try assumption.
  intros ->. discriminate.
Qed.

Lemma score_embedding_usable mat (embedding : list F) st :
  embedding <> [] -> mat <> [] ->
  rectangular (length embedding) mat = true ->
  exists cos st', score_embedding mat embedding st = (Ok cos, st').
Proof.
  intros Hemb Hmat Hrect.
  unfold score_embedding, bind, lift, ret, set_max_idx, decision_set,
    Normalizer_transform, check_array.
  cbn [rectangular forallb negb].
  destruct (Nat.eqb (length embedding) 0) eqn:Hlen.
  { apply Nat.eqb_eq in Hlen. destruct embedding; [congruence|discriminate]. }
  cbn [map nth_error of_option].
  unfold cosine_similarity. rewrite l2_normalize_length, Hrect.
  set (sims := map (fun y => dot (l2_normalize (l2_normalize embedding)) (l2_normalize y)) mat).
  destruct (np_argmax_total sims) as [idx Hidx].
  { subst sims. destruct mat; [congruence|discriminate]. }
  rewrite Hidx. cbn [max_idx l_decision].
  pose proof (np_argmax_in_range _ _ Hidx) as Hrange.
  destruct (nth_error mat idx) as [target|] eqn:Htarget.
  2:{ apply nth_error_None in Htarget. subst sims.
      rewrite length_map in Hrange. unfold vec in *. lia. }
  destruct (nth_error sims idx) as [c|] eqn:Hc.
  2:{ apply nth_error_None in Hc. lia. }
  cbn [of_option]. eauto.
Qed.

Lemma score_embedding_unusable mat (embedding : list F) st :
  rectangular (length embedding) mat = false ->
  exists e, score_embedding mat embedding st = (Raise e, st).
Proof.
  intros Hrect.
  unfold score_embedding, bind, lift, ret, set_max_idx, decision_set,
    Normalizer_transform, check_array.
  cbn [rectangular forallb negb].
  destruct (Nat.eqb (length embedding) 0) eqn:Hlen; [eauto|].
  cbn [map nth_error of_option].
  unfold cosine_similarity. rewrite l2_normalize_length, Hrect. eauto.
Qed.

(** An iteration on a usable embedding: the scores of the best candidate
    are recorded, then the decision is written from the cosine score and
    the threshold. *)
Lemma iteration_usable names mat (threshold : F) (embedding : list F) st :
  length mat = length names ->
  embedding <> [] -> mat <> [] ->
  rectangular (length embedding) mat = true ->
  exists sims idx target cos name,
    cosine_similarity (l2_normalize embedding) mat = Ok sims /\
    np_argmax sims = Ok idx /\
    nth_error mat idx = Some target /\
    nth_error sims idx = Some cos /\
    nth_error names idx = Some name /\
    snd (iteration names mat threshold (RepEmbedding embedding) st)
    = mkLocals
        (dict_update
           (dict_set "scores"
              (PScores
                  [("cosine"%string, round4 cos);
                   ("euclidean"%string,
                    round4 (euclid_score_of (l2_normalize embedding) target));
                   ("manhattan"%string,
                    round4 (manhattan_score_of (l2_normalize embedding) target))])
              (l_decision st))
           (if fltb threshold cos
            then [("status"%string, PStr "granted");
                  ("name"%string, PStr name);
                  ("confidence"%string, PStr (fmt4 cos))]
            else [("status"%string, PStr "denied");
                  ("name"%string, PStr "Unknown");
                  ("confidence"%string, PStr (fmt4 cos))]))
        (Some idx).
Proof.
  intros Hnames Hemb Hmat Hrect.
  destruct (score_embedding_usable mat embedding st Hemb Hmat Hrect)
    as (cos & st1 & Hscore).
  destruct (score_embedding_inv _ _ _ _ _ Hscore)
    as (sims & idx & target & _ & Hsims & Hidx & Htarget & Hcos & ->).
  assert (Hname : exists name, nth_error names idx = Some name).
  { destruct (nth_error names idx) as [name|] eqn:E; [eauto|].
    apply nth_error_None in E.
    assert (idx < length mat) by (apply nth_error_Some; congruence). lia. }
  destruct Hname as [name Hname].
  exists sims, idx, target, cos, name. repeat (split; [assumption|]).
  unfold iteration, try_block, bind. rewrite Hscore.
  destruct (fltb threshold cos);
    unfold get_max_idx, lift, decision_update, ret; cbn [max_idx of_option];
    [rewrite Hname|]; reflexivity.
Qed.

End IterationFacts.

(** ** The verification loop *)

Section LoopFacts.
Context {F : Type} `{Num F}.
Implicit Types (st : locals F) (mat : list (list F)) (names : list string).
Implicit Types (frames pre rest : list (frame F)).

(** The loop exits right after the frame that precedes the unread ones. *)
Lemma capture_loop_last names mat (threshold : F) (show_window : bool) frames :
  forall st st' rest,
    capture_loop names mat threshold show_window frames st = (st', rest) ->
    (frames = [] /\ st' = st /\ rest = []) \/
    exists pre fr st0,
      frames = pre ++ fr :: rest /\
      st' = snd (iteration names mat threshold (rep fr) st0).
Proof.
  induction frames as [|fr frames IH]; intros st st' rest; simpl.
  - intros [= <- <-]. now left.
  - destruct (iteration names mat threshold (rep fr) st)
      as [[confidence label] st1] eqn:Hit.
    assert (Hst1 : st1 = snd (iteration names mat threshold (rep fr) st))
      by now rewrite Hit.
    destruct (show_window && pressed_q (key fr)).
    { intros [= <- <-]. right. now exists [], fr, st. }
    destruct (fltb f0 confidence || contains "Unknown" label).
    { intros [= <- <-]. right. now exists [], fr, st. }
    intros Hloop. right.
    destruct (IH _ _ _ Hloop) as [(-> & -> & ->)|(pre & fr' & st0 & -> & ->)].
    + now exists [], fr, st.
    + now exists (fr :: pre), fr', st0.
Qed.

Lemma last_frame_unique pre pre' (fr fr' : frame F) rest :
  pre ++ fr :: rest = pre' ++ fr' :: rest -> fr = fr'.
Proof.
  intros E.
  change (fr :: rest) with ([fr] ++ rest) in E.
  change (fr' :: rest) with ([fr'] ++ rest) in E.
  rewrite !app_assoc in E. apply app_inv_tail in E.
  now apply app_inj_tail in E.
Qed.

Lemma verify_face_live_loaded names mat (threshold : F) (show_window : bool)
    (now : string) frames (fs : files F) :
  _load_db (embed_file fs) = Ok (names, mat) ->
  verify_face_live threshold show_window now (Some frames) fs
  = let '(st, rest) :=
      capture_loop names mat threshold show_window frames
        (mkLocals (initial_decision now) None) in
    (Ok (l_decision st),
     mkFiles (users_file fs) (embed_file fs)
             (log_decision (l_decision st) (log_file fs)),
     Some rest).
Proof.
  intros Hload. unfold verify_face_live. rewrite Hload.
  destruct (capture_loop _ _ _ _ _ _) as [st rest].
  now rewrite _convert_json_safe_id.
Qed.

(** When the last frame processed yields an embedding of the dimension of
    the centroids, the decision returned is the one that frame wrote. *)
Lemma verify_on_last_embedding names mat (threshold : F) (show_window : bool)
    (now : string) pre (embedding : list F) (k : Z) rest (fs fs' : files F)
    (r : result (decision F)) :
  _load_db (embed_file fs) = Ok (names, mat) ->
  rectangular (length embedding) mat = true ->
  verify_face_live threshold show_window now
    (Some (pre ++ mkFrame (RepEmbedding embedding) k :: rest)) fs
  = (r, fs', Some rest) ->
  exists sims idx target cos name d0,
    cosine_similarity (l2_normalize embedding) mat = Ok sims /\
    np_argmax sims = Ok idx /\
    nth_error mat idx = Some target /\
    nth_error sims idx = Some cos /\
    nth_error names idx = Some name /\
    r = Ok
          (dict_update
             (dict_set "scores"
                (PScores
                   [("cosine"%string, round4 cos);
                    ("euclidean"%string,
                     round4 (euclid_score_of (l2_normalize embedding) target));
                    ("manhattan"%string,
                     round4 (manhattan_score_of (l2_normalize embedding) target))])
                d0)
             (if fltb threshold cos
              then [("status"%string, PStr "granted");
                    ("name"%string, PStr name);
                    ("confidence"%string, PStr (fmt4 cos))]
              else [("status"%string, PStr "denied");
                    ("name"%string, PStr "Unknown");
                    ("confidence"%string, PStr (fmt4 cos))])).
Proof.
  intros Hload Hrect Hrun.
  rewrite (verify_face_live_loaded _ _ _ _ _ _ _ Hload) in Hrun.
  destruct (capture_loop _ _ _ _ _ _) as [st rest'] eqn:Hloop.
  injection Hrun as <- <- <-.
  destruct (_load_db_shape _ _ _ Hload) as (Hlen & c0 & mat' & -> & Hc0 & Hmat').
  assert (Hemb : embedding <> []).
  { intros ->. simpl in Hrect. apply andb_true_iff in Hrect as [Hc _].
    apply Nat.eqb_eq in Hc. destruct c0; [congruence|discriminate]. }
  apply capture_loop_last in Hloop
    as [(Hnil & _)|(pre' & fr & st0 & Hframes & ->)].
  { destruct pre; discriminate. }
  apply last_frame_unique in Hframes. subst fr. cbn [rep].
  destruct (iteration_usable names (c0 :: mat') threshold embedding st0
              Hlen Hemb ltac:(discriminate) Hrect)
    as (sims & idx & target & cos & name & Hs & Hi & Ht & Hc & Hn & ->).
  exists sims, idx, target, cos, name, (l_decision st0).
  repeat (split; [assumption|]). reflexivity.
Qed.

Lemma decision_fields (d1 : decision F) (s n c : pyval F) :
  let d := dict_update d1 [("status"%string, s); ("name"%string, n);
                           ("confidence"%string, c)] in
  dict_get "status" d = Some s /\
  dict_get "name" d = Some n /\
  dict_get "confidence" d = Some c /\
  dict_get "scores" d = dict_get "scores" d1.
Proof.
  unfold dict_update; cbn [fold_left fst snd]. repeat split.
  - rewrite !dict_get_set_other by discriminate. apply dict_get_set_same.
  - rewrite dict_get_set_other by discriminate. apply dict_get_set_same.
  - apply dict_get_set_same.
  - now rewrite !dict_get_set_other by discriminate.
Qed.

End LoopFacts.

(** ** The decision rule *)

Section DecisionRule.
Context {F : Type} `{NumOrder F}.


End DecisionRule.

Section Metrics.
Context {F : Type} `{Num F}.


End Metrics.

(** ** Centroids *)

Section Centroids.
Context {F : Type} `{NumAdd F}.


End Centroids.

(** The loop is left on the key q, whatever the high bits of the code
    [cv2.waitKey] returns; -1 means no key. *)
Example pressed_q_examples :
  pressed_q 113 = true /\ pressed_q (113 + 256) = true /\
  pressed_q 81 = false /\ pressed_q (-1) = false.
Proof. repeat split. Qed.

(** ** Frames without a usable embedding *)

Section ProbeFailure.
Context {F : Type} `{Num F}.
Implicit Types (st : locals F) (mat : list (list F)) (names : list string).

(** An iteration on such a frame binds no [max_idx] and leaves the
    decision as it was or writes the plain denial. *)
Lemma iteration_unusable names mat (threshold : F) (now : string)
    (r : rep_result F) st :
  usable mat r = false ->
  max_idx st = None ->
  l_decision st = initial_decision now \/
  l_decision st = probe_failure_decision now ->
  let st' := snd (iteration names mat threshold r st) in
  max_idx st' = None /\
  (l_decision st' = initial_decision now \/
   l_decision st' = probe_failure_decision now).
Proof.
  intros Hun Hidx Hdec. destruct st as [d mi]. simpl in Hidx, Hdec. subst mi.
  unfold iteration, try_block, bind.
  destruct r as [| |embedding]; simpl in Hun.
  - simpl. auto.
  - unfold ret at 1. simpl. destruct (fltb threshold f0); simpl.
    + auto.
    + split; [reflexivity|]. right.
      destruct Hdec as [->| ->]; reflexivity.
  - destruct (score_embedding_unusable mat embedding (mkLocals d None) Hun)
      as [e ->].
    simpl. auto.
Qed.

Lemma capture_loop_unusable names mat (threshold : F) (show_window : bool)
    (now : string) (frames : list (frame F)) :
  (forall fr, In fr frames -> usable mat (rep fr) = false) ->
  forall st,
    max_idx st = None ->
    l_decision st = initial_decision now \/
    l_decision st = probe_failure_decision now ->
    let st' := fst (capture_loop names mat threshold show_window frames st) in
    l_decision st' = initial_decision now \/
    l_decision st' = probe_failure_decision now.
Proof.
  induction frames as [|fr frames IH]; intros Hall st Hidx Hdec; simpl.
  - assumption.
  - pose proof (iteration_unusable names mat threshold now (rep fr) st
                  (Hall fr (or_introl eq_refl)) Hidx Hdec) as [Hidx' Hdec'].
    destruct (iteration names mat threshold (rep fr) st)
      as [[confidence label] st1].
    simpl in Hidx', Hdec'.
    destruct (show_window && pressed_q (key fr)); [assumption|].
    destruct (fltb f0 confidence || contains "Unknown" label); [assumption|].
    apply IH; auto. intros fr' Hfr'. apply Hall. now right.
Qed.

(** C3, as the code has it.  In a run in which no frame yields a usable
    probe embedding, the decision returned is denied, with the name [None]
    or "Unknown", a confidence of zero (the initial "0.00", or zero printed
    with four decimals) and no scores.  It carries no error marker: it has
    the regular keys and the regular status of a denial.  It is logged by
    the step that logs every decision, which appends it to the log
    whenever access_log.json is missing or holds a list. *)
Theorem C3_probe_failure_is_plain_denial
    (threshold : F) (show_window : bool) (now : string)
    (frames : list (frame F)) (fs : files F)
    (names : list string) (mat : list (list F)) :
  _load_db (embed_file fs) = Ok (names, mat) ->
  (forall fr, In fr frames -> usable mat (rep fr) = false) ->
  exists d rest,
    verify_face_live threshold show_window now (Some frames) fs
    = (Ok d,
       mkFiles (users_file fs) (embed_file fs) (log_decision d (log_file fs)),
       Some rest) /\
    dict_get "status" d = Some (PStr "denied") /\
    (dict_get "name" d = Some PNone \/
     dict_get "name" d = Some (PStr "Unknown")) /\
    (dict_get "confidence" d = Some (PStr "0.00") \/
     dict_get "confidence" d = Some (PStr (fmt4 f0))) /\
    dict_get "scores" d = Some (PScores []) /\
    dict_keys d = regular_keys /\
    has_error_marker d = false /\
    (forall log, log_file fs = Content log ->
       log_decision d (log_file fs) = Content (log ++ [d])) /\
    (log_file fs = Absent -> log_decision d (log_file fs) = Content [d]).
Proof.
  intros Hload Hall.
  rewrite (verify_face_live_loaded _ _ _ _ _ _ _ Hload).
  pose proof (capture_loop_unusable names mat threshold show_window now frames
                Hall (mkLocals (initial_decision now) None) eq_refl
                (or_introl eq_refl)) as Hdec.
  destruct (capture_loop _ _ _ _ _ _) as [st rest]. simpl in Hdec.
  exists (l_decision st), rest. split; [reflexivity|].
  assert (Hlog : (forall log, log_file fs = Content log ->
                    log_decision (l_decision st) (log_file fs)
                    = Content (log ++ [l_decision st])) /\
                 (log_file fs = Absent ->
                    log_decision (l_decision st) (log_file fs)
                    = Content [l_decision st])).
  { split; [intros log ->|intros ->]; reflexivity. }
  destruct Hlog as [Hcontent Habsent].
  destruct Hdec as [E|E]; rewrite E in *; repeat split; auto.
Qed.

End ProbeFailure.

(* ================================================================== *)
(** * The rational instance, and the theorems at concrete inputs *)

#[export] Instance QNumOrder : NumOrder Q.
Proof.
  split.
  - intros a. cbn. unfold qltb.
    now rewrite (proj2 (Qle_bool_iff a a) (Qle_refl a)).
  - intros a b c. cbn. unfold qltb. rewrite !negb_true_iff.
    intros Hab Hbc.
    destruct (Qle_bool c a) eqn:Hca; [|reflexivity].
    apply Qle_bool_iff in Hca.
    assert (Hba : ~ (b <= a)%Q) by (rewrite <- Qle_bool_iff; congruence).
    assert (Hcb : ~ (c <= b)%Q) by (rewrite <- Qle_bool_iff; congruence).
    apply Qnot_le_lt in Hba, Hcb.
    exfalso. apply (Qlt_irrefl a).
    apply Qlt_trans with b; [assumption|].
    now apply Qlt_le_trans with c.
Qed.

#[export] Instance QNumAdd : NumAdd Q.
Proof.
  split; cbv [fadd QNum qadd].
  - intros a b. apply Qred_complete. apply Qplus_comm.
  - intros a b c. apply Qred_complete.
    rewrite !Qred_correct. apply Qplus_assoc.
Qed.

Import Examples.


(** The run above, evaluated. *)
Example granted_run :
  verify_face_live SIMILARITY_THRESHOLD false "2024-01-01T00:00:00"
    (Some [mkFrame RepNoEmbedding no_key;
           mkFrame (RepEmbedding [3; 4]%Q) no_key;
           mkFrame RepRaise no_key])
    two_users
  = let d := [("status"%string, PStr "granted");
              ("name"%string, PStr "Ada");
              ("confidence"%string, PStr "0.6000");
              ("scores"%string,
               PScores [("cosine"%string, (3 # 5)%Q);
                        ("euclidean"%string, (5279 # 10000)%Q);
                        ("manhattan"%string, (909 # 2000)%Q)]);
              ("time"%string, PStr "2024-01-01T00:00:00")] in
    (Ok d,
     mkFiles (users_file two_users) (embed_file two_users) (Content [d]),
     Some [mkFrame RepRaise no_key]).
Proof. vm_compute. reflexivity. Qed.

(** The threshold is strict: with the threshold set to 0.6 the same frame,
    whose cosine score is exactly 0.6, is denied. *)
Example score_at_threshold_is_denied :
  fst (fst (verify_face_live (3 # 5)%Q false "2024-01-01T00:00:00"
              (Some [mkFrame (RepEmbedding [3; 4]%Q) no_key]) two_users))
  = Ok [("status"%string, PStr "denied");
        ("name"%string, PStr "Unknown");
        ("confidence"%string, PStr "0.6000");
        ("scores"%string,
         PScores [("cosine"%string, (3 # 5)%Q);
                  ("euclidean"%string, (5279 # 10000)%Q);
                  ("manhattan"%string, (909 # 2000)%Q)]);
        ("time"%string, PStr "2024-01-01T00:00:00")].
Proof. vm_compute. reflexivity. Qed.




(** The mean of Bob's two vectors, in either order. *)
Example mean_in_either_order :
  np_mean_axis0 [[0; 1]%Q; [0; 3]%Q] = Some [0%Q; 2%Q] /\
  np_mean_axis0 [[0; 3]%Q; [0; 1]%Q] = Some [0%Q; 2%Q].
Proof. split; vm_compute; reflexivity. Qed.

(** C3 at a concrete run: two frames, the first without an embedding, the
    second one on which the network raises. *)
Lemma C3_probe_failure_is_plain_denial_witness :
  exists d rest,
    verify_face_live SIMILARITY_THRESHOLD false "2024-01-01T00:00:00"
      (Some [mkFrame RepNoEmbedding no_key; mkFrame RepRaise no_key]) two_users
    = (Ok d,
       mkFiles (users_file two_users) (embed_file two_users)
               (log_decision d (log_file two_users)),
       Some rest) /\
    dict_get "status" d = Some (PStr "denied") /\
    (dict_get "name" d = Some PNone \/
     dict_get "name" d = Some (PStr "Unknown")) /\
    (dict_get "confidence" d = Some (PStr "0.00") \/
     dict_get "confidence" d = Some (PStr (fmt4 f0))) /\
    dict_get "scores" d = Some (PScores []) /\
    dict_keys d = regular_keys /\
    has_error_marker d = false /\
    (forall log, log_file two_users = Content log ->
       log_decision d (log_file two_users) = Content (log ++ [d])) /\
    (log_file two_users = Absent ->
       log_decision d (log_file two_users) = Content [d]).
Proof.
  apply (C3_probe_failure_is_plain_denial SIMILARITY_THRESHOLD false
           "2024-01-01T00:00:00"
           [mkFrame RepNoEmbedding no_key; mkFrame RepRaise no_key]
           two_users [ada; bob] [[1; 0]%Q; [-1; 0]%Q]).
  - vm_compute. reflexivity.
  - intros fr [<-|[<-|[]]]; reflexivity.
Defined.

(** C3 as stated fails.  A run whose only frame has no embedding returns a
    denial with the regular keys and nothing that marks an error; a run
    whose only frame has an embedding orthogonal to every centroid returns
    a denial with the same status, name and confidence.  And when a frame
    without an embedding follows the orthogonal one, the decision returned
    and the log written are those of the orthogonal frame alone. *)
Lemma C3_counterexample :
  let run frames :=
    verify_face_live SIMILARITY_THRESHOLD false "t" (Some frames) two_users in
  let no_embedding := mkFrame (@RepNoEmbedding Q) no_key in
  let orthogonal := mkFrame (RepEmbedding [0; 1]%Q) no_key in
  exists failed low,
    fst (fst (run [no_embedding])) = Ok failed /\
    fst (fst (run [orthogonal])) = Ok low /\
    failed = [("status"%string, PStr "denied");
              ("name"%string, PStr "Unknown");
              ("confidence"%string, PStr "0.0000");
              ("scores"%string, PScores []);
              ("time"%string, PStr "t")] /\
    has_error_marker failed = false /\
    dict_get "error" failed = None /\
    dict_keys failed = dict_keys low /\
    dict_get "status" failed = dict_get "status" low /\
    dict_get "name" failed = dict_get "name" low /\
    dict_get "confidence" failed = dict_get "confidence" low /\
    run [orthogonal; no_embedding] = run [orthogonal].
Proof.
  eexists _, _. repeat split; vm_compute; reflexivity.
Qed.

(* ================================================================== *)
(** * Further properties of the code *)

(** ** More on dicts *)

Section DictMoreFacts.
Context {V : Type}.
Implicit Types (d : dict V) (k : string) (v : V).

Lemma dict_get_none_iff k d : dict_get k d = None <-> ~ In k (dict_keys d).
Proof.
  induction d as [|[k0 v0] d IH]; simpl.
  - tauto.
  - destruct (String.eqb k0 k) eqn:E.
    + apply String.eqb_eq in E. split; [discriminate|]. intros Hn. tauto.
    + apply String.eqb_neq in E. rewrite IH. tauto.
Qed.

Lemma dict_get_in k v d : dict_get k d = Some v -> In (k, v) d.
Proof.
  induction d as [|[k0 v0] d IH]; simpl; [discriminate|].
  destruct (String.eqb k0 k) eqn:E.
  - apply String.eqb_eq in E. intros [= ->]. left. now subst.
  - auto.
Qed.

Lemma dict_get_nodup k v d :
  NoDup (dict_keys d) -> In (k, v) d -> dict_get k d = Some v.
Proof.
  induction d as [|[k0 v0] d IH]; simpl; [tauto|].
  intros Hnd [E|Hin].
  - injection E as -> ->. now rewrite String.eqb_refl.
  - inversion Hnd as [|? ? Hnotin Hnd']; subst.
    destruct (String.eqb k0 k) eqn:E; [|auto].
    apply String.eqb_eq in E. subst k0. exfalso. apply Hnotin.
    unfold dict_keys. change k with (fst (k, v)). now apply in_map.
Qed.

Lemma dict_set_fresh k v d :
  ~ In k (dict_keys d) -> dict_set k v d = d ++ [(k, v)].
Proof.
  induction d as [|[k0 v0] d IH]; simpl; [reflexivity|].
  intros Hn. destruct (String.eqb k0 k) eqn:E.
  - apply String.eqb_eq in E. tauto.
  - f_equal. apply IH. tauto.
Qed.

Lemma dict_keys_set_present k v d :
  In k (dict_keys d) -> dict_keys (dict_set k v d) = dict_keys d.
Proof.
  induction d as [|[k0 v0] d IH]; simpl; [tauto|].
  intros Hin. destruct (String.eqb k0 k) eqn:E; simpl.
  - apply String.eqb_eq in E. now subst.
  - f_equal. apply IH. destruct Hin as [->|Hin]; [|assumption].
    now rewrite String.eqb_refl in E.
Qed.

Lemma dict_keys_set k v d :
  dict_keys (dict_set k v d)
  = if dict_mem k d then dict_keys d else dict_keys d ++ [k].
Proof.
  unfold dict_mem. destruct (dict_get k d) as [v0|] eqn:Hget.
  - apply dict_keys_set_present.
    destruct (in_dec string_dec k (dict_keys d)) as [Hin|Hn]; [assumption|].
    apply dict_get_none_iff in Hn. congruence.
  - apply dict_get_none_iff in Hget. rewrite (dict_set_fresh _ _ _ Hget).
    unfold dict_keys. now rewrite map_app.
Qed.

Lemma dict_set_set k v v' d :
  dict_set k v' (dict_set k v d) = dict_set k v' d.
Proof.
  induction d as [|[k0 v0] d IH]; simpl.
  - now rewrite String.eqb_refl.
  - destruct (String.eqb k0 k) eqn:E; simpl.
    + now rewrite String.eqb_refl.
    + now rewrite E, IH.
Qed.

Lemma dict_get_del_same k d : dict_get k (dict_del k d) = None.
Proof.
  unfold dict_del. induction d as [|[k0 v0] d IH]; simpl; [reflexivity|].
  destruct (String.eqb k0 k) eqn:E; simpl; [assumption|].
  now rewrite E.
Qed.

Lemma dict_get_del_other k k' d :
  k' <> k -> dict_get k' (dict_del k d) = dict_get k' d.
Proof.
  intros Hne. unfold dict_del.
  induction d as [|[k0 v0] d IH]; simpl; [reflexivity|].
  destruct (String.eqb k0 k) eqn:E; simpl.
  - apply String.eqb_eq in E. subst k0.
    destruct (String.eqb k k') eqn:E'; [|assumption].
    apply String.eqb_eq in E'. congruence.
  - now rewrite IH.
Qed.

Lemma dict_del_absent k d : ~ In k (dict_keys d) -> dict_del k d = d.
Proof.
  unfold dict_del. induction d as [|[k0 v0] d IH]; simpl; [reflexivity|].
  intros Hn. destruct (String.eqb k0 k) eqn:E; simpl.
  - apply String.eqb_eq in E. tauto.
  - f_equal. apply IH. tauto.
Qed.

Lemma dict_del_set_fresh k v d :
  ~ In k (dict_keys d) -> dict_del k (dict_set k v d) = d.
Proof.
  intros Hn. rewrite (dict_set_fresh _ _ _ Hn).
  unfold dict_del. rewrite filter_app. simpl.
  rewrite String.eqb_refl. simpl. rewrite app_nil_r.
  now apply dict_del_absent.
Qed.

End DictMoreFacts.

(** ** The user registry *)

Section RegistryFacts.
Context {F : Type}.
Variable lower : string -> string.
Implicit Types (fs : files F) (users : users_db).


Lemma existsb_lower_false_inv (name : string) users :
  existsb (fun info => String.eqb (lower info) (lower name))
          (dict_values users) = false ->
  forall uid existing, In (uid, existing) users -> lower existing <> lower name.
Proof.
  intros Hex uid nm Hin Heq.
  assert (existsb (fun info => String.eqb (lower info) (lower name))
                  (dict_values users) = true); [|congruence].
  apply existsb_exists. exists nm. split.
  - unfold dict_values. change nm with (snd (uid, nm)). now apply in_map.
  - rewrite Heq. apply String.eqb_refl.
Qed.

Lemma list_users_content fs users :
  users_file fs = Content users -> list_users fs = (Ok users, fs).
Proof.
  intros Hf. unfold list_users. rewrite Hf. simpl.
  destruct fs; simpl in *. now subst.
Qed.


Lemma dict_values_set_in (k : string) (v x : string) users :
  In x (dict_values (dict_set k v users)) -> x = v \/ In x (dict_values users).
Proof.
  induction users as [|[k0 v0] users IH]; simpl.
  - intros [<-|[]]. now left.
  - destruct (String.eqb k0 k); simpl.
    + intros [<-|Hin]; auto.
    + intros [<-|Hin]; auto. destruct (IH Hin); auto.
Qed.

(** X2. Names stay unique up to case: if no two records of the registry
    have the same lower-cased name, the same holds of the registry a
    successful [add_user_record] writes. *)
Theorem X2_add_user_record_keeps_names_unique
    (name user_id : string) fs fs' users (r : string) :
  users_file fs = Content users ->
  NoDup (map lower (dict_values users)) ->
  add_user_record lower name user_id fs = (Ok r, fs') ->
  exists users',
    users_file fs' = Content users' /\
    NoDup (map lower (dict_values users')).
Proof.
  intros Hf Hnd Hadd. unfold add_user_record in Hadd.
  rewrite (list_users_content _ _ Hf) in Hadd.
  destruct (existsb _ _) eqn:Hex; [discriminate|].
  injection Hadd as _ <-.
  exists (dict_set user_id name users). split; [reflexivity|].
  pose proof (existsb_lower_false_inv _ _ Hex) as Hfree.
  clear Hex Hf. induction users as [|[k0 v0] users IH]; simpl.
  - constructor; [tauto|constructor].
  - simpl in Hnd. inversion Hnd as [|? ? Hnotin Hnd']; subst.
    assert (Hfree' : forall uid existing,
               In (uid, existing) users -> lower existing <> lower name).
    { intros uid nm Hin. apply (Hfree uid nm). now right. }
    destruct (String.eqb k0 user_id); simpl.
    + constructor; [|assumption].
      intros Hin. apply in_map_iff in Hin as (nm & Heq & Hin).
      unfold dict_values in Hin. apply in_map_iff in Hin as ([uid nm'] & E & Hin).
      simpl in E. subst nm'. exact (Hfree' uid nm Hin Heq).
    + constructor; [|now apply IH].
      intros Hin. apply in_map_iff in Hin as (nm & Heq & Hin).
      apply dict_values_set_in in Hin as [->|Hin].
      * apply (Hfree k0 v0); [now left|]. now symmetry.
      * apply Hnotin. rewrite <- Heq. now apply in_map.
Qed.

Lemma find_user_none (x : string) users :
  (forall uid nm, In (uid, nm) users -> uid <> x /\ lower nm <> lower x) ->
  find_user lower x users = None.
Proof.
  induction users as [|[uid nm] users IH]; simpl; [reflexivity|].
  intros Hall. destruct (Hall uid nm (or_introl eq_refl)) as [Hid Hnm].
  apply String.eqb_neq in Hid, Hnm. rewrite Hid, Hnm. simpl.
  apply IH. intros uid' nm' Hin. apply Hall. now right.
Qed.

Lemma find_user_some (x : string) users (uid : string) :
  find_user lower x users = Some uid ->
  exists nm, In (uid, nm) users /\ (uid = x \/ lower nm = lower x).
Proof.
  induction users as [|[uid0 nm0] users IH]; simpl; [discriminate|].
  destruct (String.eqb uid0 x || String.eqb (lower nm0) (lower x)) eqn:E.
  - intros [= <-]. exists nm0. split; [now left|].
    apply orb_true_iff in E as [E|E]; apply String.eqb_eq in E; auto.
  - intros Hfind. destruct (IH Hfind) as (nm & Hin & Hm). eauto.
Qed.

Lemma find_user_exists (x : string) users :
  (exists uid nm, In (uid, nm) users /\ (uid = x \/ lower nm = lower x)) ->
  exists uid, find_user lower x users = Some uid.
Proof.
  induction users as [|[uid0 nm0] users IH]; simpl.
  - intros (? & ? & [] & _).
  - intros (uid & nm & [E|Hin] & Hm).
    + injection E as -> ->.
      assert (String.eqb uid x || String.eqb (lower nm) (lower x) = true) as ->.
      { apply orb_true_iff.
        destruct Hm as [->| ->]; [left|right]; apply String.eqb_refl. }
      eauto.
    + destruct (String.eqb uid0 x || String.eqb (lower nm0) (lower x)); eauto.
Qed.

(** X3. Deleting an identifier that is neither the id nor, up to case, the
    name of any record returns [False] and leaves the three files as they
    were; no dataset folder is removed. *)
Theorem X3_delete_unknown_changes_nothing (x : string) fs users :
  users_file fs = Content users ->
  (forall uid nm, In (uid, nm) users -> uid <> x /\ lower nm <> lower x) ->
  delete_user_record lower x fs = (Ok false, fs, None).
Proof.
  intros Hf Hall. unfold delete_user_record.
  rewrite (list_users_content _ _ Hf).
  now rewrite (find_user_none _ _ Hall).
Qed.

End RegistryFacts.

Section DeletionFacts.
Context {F : Type}.
Variable lower : string -> string.
Implicit Types (fs : files F) (users : users_db).

(** What [delete_user_record] does once its search has found a record with
    a non-empty id, on an embeddings file that is missing or readable. *)
Lemma delete_found (x uid name : string) fs users :
  users_file fs = Content users ->
  embed_file fs <> Corrupt ->
  find_user lower x users = Some uid ->
  uid <> ""%string ->
  dict_get uid users = Some name ->
  exists fs',
    delete_user_record lower x fs = (Ok true, fs', Some name) /\
    users_file fs' = Content (dict_del uid users) /\
    stored fs' name = None /\
    (forall other, other <> name -> stored fs' other = stored fs other) /\
    log_file fs' = log_file fs.
Proof.
  intros Hf Hembed Hfind Hne Hget. unfold delete_user_record.
  rewrite (list_users_content _ _ Hf), Hfind.
  destruct uid as [|c u]; [congruence|]. rewrite Hget.
  cbn [embed_file]. unfold stored.
  destruct (embed_file fs) as [| |embeds] eqn:He; [|congruence|].
  - eexists. split; [reflexivity|]. cbn. rewrite ?He. repeat split.
  - unfold dict_mem. destruct (dict_get name embeds) eqn:Hn.
    + eexists. split; [reflexivity|]. cbn. repeat split.
      * apply dict_get_del_same.
      * intros other Hother. now apply dict_get_del_other.
    + eexists. split; [reflexivity|]. cbn. rewrite ?He. repeat split.
      assumption.
Qed.

(** X4. Deleting an identifier that is the id or, up to case, the name of
    a record returns [True]: that record is gone from users.json and the
    others are kept, the embeddings stored for its name are gone and
    those of other names are kept, the log is not touched, and the folder
    to remove is the one of its name. *)
Theorem X4_delete_removes_record_and_embeddings (x : string) fs users :
  users_file fs = Content users ->
  NoDup (dict_keys users) ->
  ~ In ""%string (dict_keys users) ->
  embed_file fs <> Corrupt ->
  (exists uid nm, In (uid, nm) users /\ (uid = x \/ lower nm = lower x)) ->
  exists uid name fs' users',
    delete_user_record lower x fs = (Ok true, fs', Some name) /\
    In (uid, name) users /\ (uid = x \/ lower name = lower x) /\
    list_users fs' = (Ok users', fs') /\
    dict_get uid users' = None /\
    (forall other, other <> uid -> dict_get other users' = dict_get other users) /\
    stored fs' name = None /\
    (forall other, other <> name -> stored fs' other = stored fs other) /\
    log_file fs' = log_file fs.
Proof.
  intros Hf Hnd Hnonempty Hembed Hex.
  destruct (find_user_exists lower _ _ Hex) as [uid Hfind].
  destruct (find_user_some lower _ _ _ Hfind) as (name & Hin & Hmatch).
  assert (Hne : uid <> ""%string).
  { intros ->. apply Hnonempty. unfold dict_keys.
    change ""%string with (fst (""%string, name)). now apply in_map. }
  pose proof (dict_get_nodup _ _ _ Hnd Hin) as Hget.
  destruct (delete_found x uid name fs users Hf Hembed Hfind Hne Hget)
    as (fs' & Hdel & Husers & Hgone & Hothers & Hlog).
  exists uid, name, fs', (dict_del uid users).
  repeat (split; [assumption|]).
  split; [now apply list_users_content|].
  split; [apply dict_get_del_same|].
  split; [intros other Hother; now apply dict_get_del_other|].
  auto.
Qed.

Lemma find_user_app (x : string) users (l : users_db) :
  (forall uid nm, In (uid, nm) users -> uid <> x /\ lower nm <> lower x) ->
  find_user lower x (users ++ l) = find_user lower x l.
Proof.
  induction users as [|[uid nm] users IH]; simpl; [reflexivity|].
  intros Hall. destruct (Hall uid nm (or_introl eq_refl)) as [Hid Hnm].
  apply String.eqb_neq in Hid, Hnm. rewrite Hid, Hnm. simpl.
  apply IH. intros uid' nm' Hin. apply Hall. now right.
Qed.

(** X5. Creating a record and deleting it by the id returned gives back
    the registry as it was, provided the id is new, not empty, and not the
    name of a record up to case.  Embeddings that were stored under the
    name are removed by the deletion; those of other names and the log are
    as before. *)
Theorem X5_add_then_delete_restores_registry
    (name user_id : string) fs fs1 users :
  users_file fs = Content users ->
  embed_file fs <> Corrupt ->
  user_id <> ""%string ->
  ~ In user_id (dict_keys users) ->
  (forall uid nm, In (uid, nm) users -> lower nm <> lower user_id) ->
  add_user_record lower name user_id fs = (Ok user_id, fs1) ->
  exists fs2,
    delete_user_record lower user_id fs1 = (Ok true, fs2, Some name) /\
    users_file fs2 = users_file fs /\
    stored fs2 name = None /\
    (forall other, other <> name -> stored fs2 other = stored fs other) /\
    log_file fs2 = log_file fs.
Proof.
  intros Hf Hembed Hne Hfresh Hnames Hadd.
  unfold add_user_record in Hadd.
  rewrite (list_users_content _ _ Hf) in Hadd.
  destruct (existsb _ _); [discriminate|].
  injection Hadd as <-.
  assert (Hfind : find_user lower user_id (dict_set user_id name users)
                  = Some user_id).
  { rewrite (dict_set_fresh _ _ _ Hfresh), find_user_app.
    - simpl. now rewrite String.eqb_refl.
    - intros uid nm Hin. split; [|now apply (Hnames uid nm)].
      intros ->. apply Hfresh. unfold dict_keys.
      change user_id with (fst (user_id, nm)). now apply in_map. }
  destruct (delete_found user_id user_id name
              (mkFiles (_write_json (dict_set user_id name users))
                       (embed_file fs) (log_file fs))
              (dict_set user_id name users)
              eq_refl Hembed Hfind Hne (dict_get_set_same _ _ _))
    as (fs2 & Hdel & Husers & Hgone & Hothers & Hlog).
  exists fs2. split; [exact Hdel|].
  split; [rewrite Husers, Hf, dict_del_set_fresh by assumption; reflexivity|].
  auto.
Qed.

End DeletionFacts.

(** ** Registration through the API and through the console *)

Section JobFacts.
Context {F : Type} `{Num F}.
Variable lower : string -> string.
Implicit Types (srv : server F) (fs : files F).



(** X7. Whatever the capture and the embedding step do, the background job
    leaves the job of its name completed or failed, never processing; it
    changes the job of no other name, and it touches neither users.json
    nor the log nor the embeddings stored for other names. *)
Theorem X7_job_ends_in_terminal_state
    (name : string) (capture : capture_result F) srv :
  let srv' := process_registration name capture srv in
  (registration_status_check name srv' = "completed"%string \/
   registration_status_check name srv' = "failed"%string) /\
  (forall other, other <> name ->
     registration_status_check other srv'
     = registration_status_check other srv) /\
  users_file (store srv') = users_file (store srv) /\
  log_file (store srv') = log_file (store srv) /\
  (forall other, other <> name ->
     stored (store srv') other = stored (store srv) other).
Proof.
  assert (Hstatus : forall (s : job_status) fs' other,
             other <> name ->
             registration_status_check other
               (mkServer fs' (dict_set name s (registration_status srv)))
             = registration_status_check other srv).
  { intros s fs' other Hother. unfold registration_status_check. cbn.
    now rewrite dict_get_set_other. }
  assert (Hown : forall (s : job_status) fs',
             registration_status_check name
               (mkServer fs' (dict_set name s (registration_status srv)))
             = status_str s).
  { intros s fs'. unfold registration_status_check. cbn.
    now rewrite dict_get_set_same. }
  unfold process_registration.
  destruct capture as [|n cropped]; [|destruct (Nat.eqb n 0)];
    try (rewrite Hown; cbn; repeat split; auto; fail).
  unfold generate_and_save_embeddings_for_user.
  destruct (average_embeddings _) as [embs|e].
  - unfold save_user_embeddings. destruct embs as [|v embs];
      rewrite Hown; cbn; repeat split; auto.
    intros other Hother. unfold stored. cbn.
    rewrite dict_get_set_other by assumption.
    now destruct (embed_file (store srv)).
  - rewrite Hown; cbn; repeat split; auto.
Qed.

(** X8. A job that ends as failed has written no file. *)
Theorem X8_failed_job_writes_nothing
    (name : string) (capture : capture_result F) srv :
  dict_get name
    (registration_status (process_registration name capture srv))
  = Some Failed ->
  store (process_registration name capture srv) = store srv.
Proof.
  unfold process_registration.
  destruct capture as [|n cropped]; [reflexivity|].
  destruct (Nat.eqb n 0); [reflexivity|].
  unfold generate_and_save_embeddings_for_user.
  destruct (average_embeddings _) as [embs|e]; [|reflexivity].
  destruct (save_user_embeddings name embs (store srv)) as [saved fs'].
  cbn. rewrite dict_get_set_same. discriminate.
Qed.

(** X9. When the folder holds embeddings that are not all of one
    dimension, the job fails: averaging raises, the exception is caught,
    and embeddings.json keeps what it had. *)
Theorem X9_mixed_dimensions_fail_the_job
    (name : string) (n : nat) (images : list (rep_result F)) srv :
  n <> 0 ->
  compute_embeddings_for_folder (Some images) <> [] ->
  np_mean_axis0 (compute_embeddings_for_folder (Some images)) = None ->
  process_registration name (Captured n (Some images)) srv
  = mkServer (store srv) (dict_set name Failed (registration_status srv)).
Proof.
  intros Hn Hne Hmean. unfold process_registration.
  destruct (Nat.eqb n 0) eqn:En; [apply Nat.eqb_eq in En; contradiction|].
  unfold generate_and_save_embeddings_for_user, average_embeddings.
  destruct (compute_embeddings_for_folder (Some images)) as [|v vs] eqn:Hc;
    [congruence|].
  now rewrite Hmean.
Qed.

(** X10. The console flow and the HTTP flow write the same files: for a
    non-empty name, the files left by [add_user_flow] are the store left
    by /register followed, when a job was started, by that job on the
    same capture. *)
Theorem X10_console_and_api_write_the_same
    (name user_id : string) (capture : capture_result F) srv :
  name <> ""%string ->
  let '(_, srv1, job) := register_user lower (Some name) user_id srv in
  let srv2 :=
    match job with
    | Some n => process_registration n capture srv1
    | None => srv1
    end in
  snd (add_user_flow lower name user_id capture (store srv)) = store srv2.
Proof.
  intros Hname. unfold register_user, add_user_flow.
  destruct name as [|c name']; [congruence|].
  destruct (add_user_record lower (String c name') user_id (store srv))
    as [[uid|e] fs'].
  - cbn. unfold process_registration.
    destruct capture as [|n cropped]; [reflexivity|].
    destruct (Nat.eqb n 0); [reflexivity|]. cbn.
    destruct (generate_and_save_embeddings_for_user _ _ _) as [[u|e] fs''];
      reflexivity.
  - cbn. destruct (is_ValueError e); reflexivity.
Qed.

End JobFacts.

(** ** The embedding store *)

Section StoreFacts.
Context {F : Type} `{Num F}.
Implicit Types (fs : files F) (vs : list (list F)) (db : embed_db F).

(** X11. Saving keeps the order of enrolled names, which is the order in
    which a verification breaks ties: a name already in embeddings.json
    keeps its place, a new name goes last, and no name appears twice. *)
Theorem X11_save_keeps_enrolment_order (name : string) vs fs db :
  vs <> [] ->
  embed_file fs = Content db ->
  NoDup (dict_keys db) ->
  exists db',
    embed_file (snd (save_user_embeddings name vs fs)) = Content db' /\
    dict_keys db'
    = (if dict_mem name db then dict_keys db else dict_keys db ++ [name]) /\
    NoDup (dict_keys db').
Proof.
  intros Hvs Hf Hnd. destruct vs as [|v vs]; [congruence|].
  unfold save_user_embeddings. rewrite Hf. cbn.
  eexists. split; [reflexivity|]. rewrite dict_keys_set.
  split; [reflexivity|].
  unfold dict_mem. destruct (dict_get name db) eqn:Hget; [assumption|].
  apply dict_get_none_iff in Hget.
  apply NoDup_app; [assumption|repeat constructor; tauto|].
  intros k Hin [<-|[]]. contradiction.
Qed.

(** X12. A second save for a name replaces the first and merges nothing:
    the files after two saves of non-empty sequences are the files after
    the second alone. *)
Theorem X12_later_save_replaces_earlier (name : string) vs1 vs2 fs :
  vs1 <> [] -> vs2 <> [] ->
  save_user_embeddings name vs2 (snd (save_user_embeddings name vs1 fs))
  = save_user_embeddings name vs2 fs.
Proof.
  intros H1 H2. destruct vs1 as [|v1 vs1]; [congruence|].
  destruct vs2 as [|v2 vs2]; [congruence|].
  unfold save_user_embeddings. cbn.
  destruct (embed_file fs) as [| |db]; cbn.
  - now rewrite String.eqb_refl.
  - now rewrite String.eqb_refl.
  - now rewrite dict_set_set.
Qed.

(** X13. [compute_embeddings_for_folder] returns the embeddings of the
    images that have one, in the order of the images, and skips the
    others: it is additive over the folder's image list, it never returns
    more vectors than there are images, and a vector is returned exactly
    when some image yields it. *)
Theorem X13_folder_embeddings_in_order
    (images1 images2 : list (rep_result F)) :
  compute_embeddings_for_folder (Some (images1 ++ images2))
  = compute_embeddings_for_folder (Some images1)
    ++ compute_embeddings_for_folder (Some images2) /\
  length (compute_embeddings_for_folder (Some images1)) <= length images1 /\
  (forall v, In v (compute_embeddings_for_folder (Some images1))
             <-> In (RepEmbedding v) images1) /\
  compute_embeddings_for_folder (@None (list (rep_result F))) = [].
Proof.
  unfold compute_embeddings_for_folder. rewrite !collect_embeddings. cbn.
  split; [apply flat_map_app|]. split; [|split; [|reflexivity]].
  - induction images1 as [|r images1 IH]; cbn; [lia|].
    destruct r; cbn; lia.
  - intros v. rewrite in_flat_map. split.
    + intros (r & Hin & Hv). destruct r; cbn in Hv; try contradiction.
      destruct Hv as [<-|[]]. assumption.
    + intros Hin. exists (RepEmbedding v). split; [assumption|now left].
Qed.

End StoreFacts.

(** ** Saving, then loading *)

Section SaveThenLoad.
Context {F : Type} `{Num F}.
Implicit Types (fs : files F) (vs : list (list F)) (db : embed_db F).
Implicit Types (names : list string) (mat : list (list F)).

Lemma mean_rows_total db names (d : nat) :
  (forall n, In n names ->
     exists vecs row, dict_get n db = Some vecs /\
                      np_mean_axis0 vecs = Some row /\ length row = d) ->
  exists mat0,
    mean_rows db names = Ok mat0 /\
    (names <> [] -> mat0 <> []) /\
    forall r, In r mat0 -> length r = d.
Proof.
  induction names as [|n names IH]; intros Hall; cbn.
  - exists []. repeat split; [congruence|intros r []].
  - destruct (Hall n (or_introl eq_refl)) as (vecs & row & Hget & Hmean & Hlen).
    rewrite Hget, Hmean.
    destruct IH as (mat0 & -> & _ & Hrows).
    { intros n' Hin. apply Hall. now right. }
    exists (row :: mat0). repeat split; [discriminate|].
    intros r [<-|Hin]; auto.
Qed.

Lemma check_array_ok (X : list (list F)) (d : nat) :
  X <> [] -> d <> 0 -> (forall r, In r X -> length r = d) ->
  check_array X = Ok X.
Proof.
  intros Hne Hd Hrows. unfold check_array. destruct X as [|r rest]; [congruence|].
  assert (Hr : length r = d) by (apply Hrows; now left).
  assert (rectangular (length r) rest = true) as ->.
  { apply rectangular_spec. intros r' Hin. rewrite Hr. apply Hrows. now right. }
  cbn. rewrite Hr. destruct (Nat.eqb d 0) eqn:E; [|reflexivity].
  apply Nat.eqb_eq in E. contradiction.
Qed.

(** The rows a successful load computes, name by name, and their common
    length. *)
Lemma _load_db_rows db names mat :
  _load_db (Content db) = Ok (names, mat) ->
  names = dict_keys db /\ db <> [] /\
  (forall i n, nth_error names i = Some n ->
     exists vecs m, dict_get n db = Some vecs /\
                    np_mean_axis0 vecs = Some m /\
                    nth_error mat i = Some (l2_normalize m)) /\
  exists d, d <> 0 /\
    (forall r, In r mat -> length r = d) /\
    forall n, In n names ->
      exists vecs row, dict_get n db = Some vecs /\
                       np_mean_axis0 vecs = Some row /\ length row = d.
Proof.
  intros Hload.
  destruct (_load_db_inv _ _ _ Hload) as (Hnames & mat0 & Hrows & Hchk & ->).
  split; [assumption|]. split.
  { intros ->. discriminate Hload. }
  split.
  { intros i n Hi.
    destruct (mean_rows_spec _ _ _ Hrows i n Hi) as (vecs & m & Hg & Hm & Hn).
    exists vecs, m. repeat split; try assumption. now apply map_nth_error. }
  unfold check_array in Hchk. destruct mat0 as [|r0 rest]; [discriminate|].
  destruct (rectangular (length r0) rest) eqn:Hrect; [|discriminate].
  destruct (Nat.eqb (length r0) 0) eqn:Hr0; [discriminate|].
  apply Nat.eqb_neq in Hr0.
  assert (Hall : forall r, In r (r0 :: rest) -> length r = length r0).
  { intros r [<-|Hin]; [reflexivity|].
    now apply (proj1 (rectangular_spec _ _) Hrect). }
  exists (length r0). split; [assumption|]. split.
  - intros r Hin. apply in_map_iff in Hin as (r' & <- & Hin).
    rewrite l2_normalize_length. now apply Hall.
  - intros n Hin. apply In_nth_error in Hin as [i Hi].
    destruct (mean_rows_spec _ _ _ Hrows i n Hi) as (vecs & m & Hg & Hm & Hn).
    exists vecs, m. repeat split; try assumption.
    apply Hall. eapply nth_error_In. eassumption.
Qed.

(** X14. Saving makes a name matchable and disturbs no other.  If the
    store loads, and vectors with mean [m] of the dimension of the
    centroids are saved for a name, the store loads again: every name
    keeps its index, the saved name is among the names, its row is the
    normalised [m], and the rows of the other names are as before. *)
Theorem X14_saved_name_is_loaded
    (name : string) vs (m : list F) fs names mat :
  _load_db (embed_file fs) = Ok (names, mat) ->
  np_mean_axis0 vs = Some m ->
  rectangular (length m) mat = true ->
  exists names' mat',
    _load_db (embed_file (snd (save_user_embeddings name vs fs)))
    = Ok (names', mat') /\
    In name names' /\
    (forall i n, nth_error names i = Some n ->
       nth_error names' i = Some n /\
       (n <> name -> nth_error mat' i = nth_error mat i)) /\
    (forall i, nth_error names' i = Some name ->
       nth_error mat' i = Some (l2_normalize m)).
Proof.
  intros Hload Hmean Hrect.
  destruct (embed_file fs) as [| |db] eqn:Hf; try discriminate Hload.
  destruct (_load_db_rows _ _ _ Hload)
    as (Hnames & Hdb & Hrows & d & Hd & Hlen & Hall).
  assert (Hm : length m = d).
  { destruct mat as [|c0 mat'].
    - destruct db as [|[k v] db]; [congruence|]. subst names.
      destruct (Hrows 0 k eq_refl) as (? & ? & _ & _ & E). discriminate.
    - cbn in Hrect. apply andb_true_iff in Hrect as [Hc _].
      apply Nat.eqb_eq in Hc. rewrite <- Hc. apply Hlen. now left. }
  destruct vs as [|v vs']; [discriminate|]. set (vs := v :: vs') in *.
  set (db' := dict_set name vs db).
  assert (Hsave : embed_file (snd (save_user_embeddings name vs fs))
                  = Content db').
  { unfold save_user_embeddings. subst vs. cbn. now rewrite Hf. }
  assert (Hkeys : dict_keys db'
                  = if dict_mem name db then names else names ++ [name]).
  { subst db' names. apply dict_keys_set. }
  assert (Hin : In name (dict_keys db')).
  { destruct (in_dec string_dec name (dict_keys db')) as [|Hn]; [assumption|].
    apply dict_get_none_iff in Hn. subst db'.
    rewrite dict_get_set_same in Hn. discriminate. }
  assert (Hall' : forall n, In n (dict_keys db') ->
            exists vecs row, dict_get n db' = Some vecs /\
                             np_mean_axis0 vecs = Some row /\ length row = d).
  { intros n Hn. destruct (string_dec n name) as [->|Hne].
    - exists vs, m. subst db'. rewrite dict_get_set_same. auto.
    - subst db'. rewrite dict_get_set_other by assumption.
      apply Hall. rewrite Hkeys in Hn. destruct (dict_mem name db); [assumption|].
      apply in_app_or in Hn as [Hn|[E|[]]]; [assumption|congruence]. }
  destruct (mean_rows_total db' (dict_keys db') d Hall')
    as (mat0' & Hrows' & Hne' & Hlen').
  assert (Hload' : _load_db (Content db')
                   = Ok (dict_keys db', map l2_normalize mat0')).
  { unfold _load_db. destruct db' as [|e0 db0] eqn:Edb; [destruct Hin|].
    rewrite Hrows'. unfold Normalizer_transform.
    rewrite (check_array_ok mat0' d); auto.
    apply Hne'. discriminate. }
  exists (dict_keys db'), (map l2_normalize mat0').
  rewrite Hsave. split; [assumption|]. split; [assumption|].
  destruct (_load_db_rows _ _ _ Hload') as (_ & _ & Hrows2 & _).
  split.
  - intros i n Hi.
    assert (Hi' : nth_error (dict_keys db') i = Some n).
    { rewrite Hkeys. destruct (dict_mem name db); [assumption|].
      rewrite nth_error_app1; [assumption|].
      apply nth_error_Some. congruence. }
    split; [assumption|]. intros Hne.
    destruct (Hrows i n Hi) as (vecs & r & Hg & Hr & ->).
    destruct (Hrows2 i n Hi') as (vecs2 & r2 & Hg2 & Hr2 & ->).
    subst db'. rewrite dict_get_set_other in Hg2 by assumption. congruence.
  - intros i Hi.
    destruct (Hrows2 i name Hi) as (vecs2 & r2 & Hg2 & Hr2 & ->).
    subst db'. rewrite dict_get_set_same in Hg2. congruence.
Qed.

End SaveThenLoad.

(** X15. The first save makes the store loadable: on an embeddings.json
    that is empty, missing or unparseable, saving vectors whose mean [m]
    has at least one component leaves a store that loads with the saved
    name as its only name and the normalised [m] as its only centroid.
    (What an unparseable file held is lost.) *)
Theorem X15_first_save_makes_store_loadable
    {F : Type} `{Num F} (name : string) (vs : list (list F)) (m : list F)
    (fs : files F) :
  embed_file fs = Content [] \/ embed_file fs = Absent
  \/ embed_file fs = Corrupt ->
  np_mean_axis0 vs = Some m ->
  m <> [] ->
  _load_db (embed_file (snd (save_user_embeddings name vs fs)))
  = Ok ([name], [l2_normalize m]).
Proof.
  intros Hf Hmean Hm. destruct vs as [|v vs']; [discriminate|].
  unfold save_user_embeddings.
  assert (Hdb : match embed_file fs with
                | Content db => db | Corrupt => [] | Absent => [] end
                = ([] : embed_db F)).
  { destruct Hf as [->|[->| ->]]; reflexivity. }
  rewrite Hdb. cbn [snd embed_file dict_set _load_db dict_keys map fst mean_rows
                    dict_get].
  rewrite String.eqb_refl, Hmean.
  unfold Normalizer_transform, check_array. cbn [rectangular forallb negb].
  destruct (Nat.eqb (length m) 0) eqn:E; [|reflexivity].
  apply Nat.eqb_eq in E. destruct m; [congruence|discriminate].
Qed.

(** ** Every run of the verification *)

Section RunFacts.
Context {F : Type} `{Num F}.
Implicit Types (st : locals F) (mat : list (list F)) (names : list string).

Lemma decision_ok_scores names (now : string) (d : decision F)
    (sc : dict F) :
  dict_keys sc = ["cosine"; "euclidean"; "manhattan"]%string ->
  decision_ok names now d ->
  decision_ok names now (dict_set "scores" (PScores sc) d).
Proof.
  intros Hsc (Hkeys & Htime & Hconf & _ & Hstatus).
  unfold decision_ok.
  rewrite dict_keys_set_present by (rewrite Hkeys; cbn; tauto).
  rewrite dict_get_set_same.
  rewrite !dict_get_set_other by discriminate.
  split; [assumption|]. split; [assumption|]. split; [assumption|].
  split; [exists sc; auto|assumption].
Qed.

Lemma decision_ok_update names (now : string) (d : decision F)
    (status name confidence : string) :
  (status = "denied"%string /\ name = "Unknown"%string) \/
  (status = "granted"%string /\ In name names) ->
  decision_ok names now d ->
  decision_ok names now
    (dict_update d [("status"%string, PStr status);
                    ("name"%string, PStr name);
                    ("confidence"%string, PStr confidence)]).
Proof.
  intros Hcase (Hkeys & Htime & _ & Hscores & _).
  destruct (decision_fields d (PStr status) (PStr name) (PStr confidence))
    as (Hst & Hnm & Hcf & Hsc).
  unfold decision_ok. rewrite Hst, Hnm, Hcf, Hsc.
  unfold dict_update; cbn [fold_left fst snd].
  assert (Hk1 : dict_keys (dict_set "status" (PStr status) d) = regular_keys).
  { rewrite dict_keys_set_present; [assumption|]. rewrite Hkeys; cbn; tauto. }
  assert (Hk2 : dict_keys (dict_set "name" (PStr name)
                             (dict_set "status" (PStr status) d))
                = regular_keys).
  { rewrite dict_keys_set_present; [assumption|]. rewrite Hk1; cbn; tauto. }
  rewrite dict_keys_set_present by (rewrite Hk2; cbn; tauto).
  rewrite !dict_get_set_other by discriminate.
  split; [assumption|]. split; [assumption|]. split; [eauto|].
  split; [assumption|].
  destruct Hcase as [[-> ->]|[-> Hin]]; [left|right]; eauto.
Qed.

Lemma score_embedding_decision mat (embedding : list F) st
    (r : result F) st' :
  score_embedding mat embedding st = (r, st') ->
  l_decision st' = l_decision st \/
  exists sc, dict_keys sc = ["cosine"; "euclidean"; "manhattan"]%string /\
             l_decision st' = dict_set "scores" (PScores sc) (l_decision st).
Proof.
  unfold score_embedding, bind, lift, ret, set_max_idx, decision_set.
  destruct (Normalizer_transform [embedding]) as [emb2d|e];
    [|intros [= <- <-]; now left].
  destruct (of_option IndexError (nth_error emb2d 0)) as [emb|e];
    [|intros [= <- <-]; now left].
  destruct (cosine_similarity emb mat) as [sims|e];
    [|intros [= <- <-]; now left].
  destruct (np_argmax sims) as [idx|e]; [|intros [= <- <-]; now left].
  cbn [l_decision max_idx].
  destruct (of_option IndexError (nth_error mat idx)) as [target|e];
    [|intros [= <- <-]; now left].
  destruct (of_option IndexError (nth_error sims idx)) as [cos|e];
    [|intros [= <- <-]; now left].
  cbn [l_decision max_idx]. intros [= <- <-]. right.
  eexists. split; [|reflexivity]. reflexivity.
Qed.

Lemma iteration_decision_ok names mat (threshold : F) (now : string)
    (r : rep_result F) st :
  decision_ok names now (l_decision st) ->
  decision_ok names now
    (l_decision (snd (iteration names mat threshold r st))).
Proof.
  intros Hok. unfold iteration, try_block, bind.
  assert (Hbranch : forall (confidence : F) st1,
    decision_ok names now (l_decision st1) ->
    decision_ok names now
      (l_decision
         (snd (let (r0, st2) :=
                 (if fltb threshold confidence
                  then
                    fun st0 =>
                      let (r1, st3) := get_max_idx st0 in
                      match r1 with
                      | Ok idx =>
                          let (r2, st4) :=
                            lift (of_option IndexError (nth_error names idx))
                                 st3 in
                          match r2 with
                          | Ok name =>
                              let (r3, st5) :=
                                decision_update
                                  [("status"%string, PStr "granted");
                                   ("name"%string, PStr name);
                                   ("confidence"%string,
                                    PStr (fmt4 confidence))] st4 in
                              match r3 with
                              | Ok _ =>
                                  ret (confidence,
                                       granted_label name confidence) st5
                              | Raise e => (Raise e, st5)
                              end
                          | Raise e => (Raise e, st4)
                          end
                      | Raise e => (Raise e, st3)
                      end
                  else
                    fun st0 =>
                      let (r1, st3) :=
                        decision_update
                          [("status"%string, PStr "denied");
                           ("name"%string, PStr "Unknown");
                           ("confidence"%string, PStr (fmt4 confidence))]
                          st0 in
                      match r1 with
                      | Ok _ => ret (confidence, "Access Denied"%string) st3
                      | Raise e => (Raise e, st3)
                      end) st1 in
               match r0 with
               | Ok cl => (cl, st2)
               | Raise _ => (f0, "No Face / Error"%string, st2)
               end)))).
  { intros confidence st1 Hok1.
    destruct (fltb threshold confidence).
    - unfold get_max_idx, lift, decision_update, ret.
      destruct (max_idx st1) as [idx|]; cbn; [|assumption].
      destruct (nth_error names idx) as [name|] eqn:Hn; cbn; [|assumption].
      apply decision_ok_update; [|assumption].
      right. split; [reflexivity|]. eapply nth_error_In; eassumption.
    - unfold decision_update, ret. cbn.
      apply decision_ok_update; [|assumption]. now left. }
  destruct r as [| |embedding].
  - cbn. assumption.
  - unfold ret at 1. cbv beta iota. apply Hbranch. assumption.
  - destruct (score_embedding mat embedding st) as [[cos|e] st1] eqn:Hscore.
    + apply Hbranch.
      apply score_embedding_decision in Hscore as [->|(sc & Hsc & ->)];
        [assumption|]. now apply decision_ok_scores.
    + cbn.
      apply score_embedding_decision in Hscore as [->|(sc & Hsc & ->)];
        [assumption|]. now apply decision_ok_scores.
Qed.

Lemma capture_loop_decision_ok names mat (threshold : F)
    (show_window : bool) (now : string) (frames : list (frame F)) :
  forall st,
    decision_ok names now (l_decision st) ->
    decision_ok names now
      (l_decision
         (fst (capture_loop names mat threshold show_window frames st))).
Proof.
  induction frames as [|fr frames IH]; intros st Hok; cbn; [assumption|].
  pose proof (iteration_decision_ok names mat threshold now (rep fr) st Hok)
    as Hok'.
  destruct (iteration names mat threshold (rep fr) st)
    as [[confidence label] st1].
  cbn in Hok'.
  destruct (show_window && pressed_q (key fr)); [assumption|].
  destruct (fltb f0 confidence || contains "Unknown" label); [assumption|].
  now apply IH.
Qed.

(** X16. Every decision a verification returns is well formed: it has
    exactly the keys status, name, confidence, scores and time, the time
    is the one taken at the start, and it is either a denial named [None]
    or "Unknown" or a grant. *)
Theorem X16_decisions_are_well_formed
    (threshold : F) (show_window : bool) (now : string)
    (cap : camera F) (fs fs' : files F) (cap' : camera F) (d : decision F) :
  verify_face_live threshold show_window now cap fs = (Ok d, fs', cap') ->
  dict_keys d = regular_keys /\
  dict_get "time" d = Some (PStr now) /\
  (exists c, dict_get "confidence" d = Some (PStr c)) /\
  ((dict_get "status" d = Some (PStr "denied") /\
    (dict_get "name" d = Some PNone \/
     dict_get "name" d = Some (PStr "Unknown"))) \/
   (dict_get "status" d = Some (PStr "granted") /\
    exists n, dict_get "name" d = Some (PStr n))).
Proof.
  unfold verify_face_live.
  destruct (_load_db (embed_file fs)) as [[names mat]|e]; [|discriminate].
  destruct cap as [frames|]; [|discriminate].
  pose proof (capture_loop_decision_ok names mat threshold show_window now
                frames (mkLocals (initial_decision now) None)) as Hok.
  destruct (capture_loop _ _ _ _ _ _) as [st rest].
  rewrite _convert_json_safe_id. intros [= <- _ _].
  destruct Hok as (Hkeys & Htime & Hconf & _ & Hstatus).
  { unfold decision_ok. cbn. repeat split; eauto. }
  repeat split; try assumption.
  destruct Hstatus as [Hd|(Hg & n & Hn & _)]; [now left|right; eauto].
Qed.

(** X17. Access is never granted to a name that is not enrolled: in every
    granted decision the name is a key of embeddings.json with stored
    vectors, whatever the threshold and whatever the frames were. *)
Theorem X17_granted_name_is_enrolled
    (threshold : F) (show_window : bool) (now : string)
    (cap : camera F) (fs fs' : files F) (cap' : camera F) (d : decision F) :
  verify_face_live threshold show_window now cap fs = (Ok d, fs', cap') ->
  dict_get "status" d = Some (PStr "granted") ->
  exists n vecs,
    dict_get "name" d = Some (PStr n) /\
    stored fs n = Some vecs /\ vecs <> [].
Proof.
  unfold verify_face_live.
  destruct (_load_db (embed_file fs)) as [[names mat]|e] eqn:Hload;
    [|discriminate].
  destruct cap as [frames|]; [|discriminate].
  pose proof (capture_loop_decision_ok names mat threshold show_window now
                frames (mkLocals (initial_decision now) None)) as Hok.
  destruct (capture_loop _ _ _ _ _ _) as [st rest].
  rewrite _convert_json_safe_id. intros [= <- _ _] Hgranted.
  destruct Hok as (_ & _ & _ & _ & Hstatus).
  { unfold decision_ok. cbn. repeat split; eauto. }
  destruct Hstatus as [[Hd _]|(_ & n & Hn & Hin)]; [cbn in *; congruence|].
  destruct (embed_file fs) as [| |db] eqn:Hf; try discriminate Hload.
  apply In_nth_error in Hin as [i Hi].
  destruct (_load_db_inv _ _ _ Hload) as (_ & mat0 & Hrows & _).
  destruct (mean_rows_spec _ _ _ Hrows i n Hi) as (vecs & m & Hget & Hmean & _).
  exists n, vecs. split; [assumption|]. unfold stored. rewrite Hf.
  split; [assumption|]. intros ->. discriminate.
Qed.

End RunFacts.

Section RunEffects.
Context {F : Type} `{Num F}.
Implicit Types (st : locals F) (mat : list (list F)) (names : list string).

(** X18. A verification writes nothing but the log, and only at its end.
    users.json and embeddings.json are as before.  A run that raises
    leaves every file and the camera as they were.  A run that returns a
    decision appends it after the entries the log had (starting a new
    log if the file is missing), and leaves an unparseable log alone. *)
Theorem X18_run_only_appends_to_log
    (threshold : F) (show_window : bool) (now : string)
    (cap cap' : camera F) (fs fs' : files F) (r : result (decision F)) :
  verify_face_live threshold show_window now cap fs = (r, fs', cap') ->
  users_file fs' = users_file fs /\
  embed_file fs' = embed_file fs /\
  match r with
  | Raise _ => fs' = fs /\ cap' = cap
  | Ok d =>
      (forall log, log_file fs = Content log ->
         log_file fs' = Content (log ++ [d])) /\
      (log_file fs = Absent -> log_file fs' = Content [d]) /\
      (log_file fs = Corrupt -> log_file fs' = Corrupt)
  end.
Proof.
  unfold verify_face_live.
  destruct (_load_db (embed_file fs)) as [[names mat]|e].
  2:{ intros [= <- <- <-]. auto. }
  destruct cap as [frames|].
  2:{ intros [= <- <- <-]. auto. }
  destruct (capture_loop _ _ _ _ _ _) as [st rest].
  intros [= <- <- <-]. cbn. repeat split.
  - intros log ->. reflexivity.
  - intros ->. reflexivity.
  - intros ->. reflexivity.
Qed.

Lemma mean_rows_bad_entry (db : embed_db F) (name : string)
    (vecs : list (list F)) names :
  dict_get name db = Some vecs ->
  np_mean_axis0 vecs = None ->
  (forall n, In n names -> In n (dict_keys db)) ->
  In name names ->
  exists msg, mean_rows db names = Raise (ValueError msg).
Proof.
  intros Hget Hmean. induction names as [|n names IH]; intros Hkeys Hin.
  - destruct Hin.
  - cbn. destruct (dict_get n db) as [v|] eqn:Hn.
    2:{ apply dict_get_none_iff in Hn. exfalso. apply Hn, Hkeys. now left. }
    destruct (np_mean_axis0 v) as [m|] eqn:Hv; [|eauto].
    destruct IH as [msg ->]; [| |eauto].
    + intros n' Hn'. apply Hkeys. now right.
    + destruct Hin as [->|Hin]; [congruence|assumption].
Qed.

(** X19. One bad entry blocks every verification: if embeddings.json
    holds, for some name, an empty list of vectors or vectors of different
    lengths, [verify_face_live] raises a [ValueError] for every camera and
    threshold, before it reads a frame, and logs nothing. *)
Theorem X19_bad_entry_blocks_every_verification
    (threshold : F) (show_window : bool) (now : string)
    (cap : camera F) (fs : files F) (db : embed_db F)
    (name : string) (vecs : list (list F)) :
  embed_file fs = Content db ->
  dict_get name db = Some vecs ->
  np_mean_axis0 vecs = None ->
  exists msg,
    verify_face_live threshold show_window now cap fs
    = (Raise (ValueError msg), fs, cap).
Proof.
  intros Hf Hget Hmean.
  destruct (mean_rows_bad_entry db name vecs (dict_keys db) Hget Hmean)
    as [msg Hrows]; [auto| |].
  { destruct (in_dec string_dec name (dict_keys db)) as [|Hn]; [assumption|].
    apply dict_get_none_iff in Hn. congruence. }
  exists msg. unfold verify_face_live, _load_db. rewrite Hf.
  destruct db as [|entry db']; [discriminate|]. now rewrite Hrows.
Qed.

End RunEffects.

Section TieBreak.
Context {F : Type} `{NumOrder F}.

Lemma argmax_from_first (l : list F) : forall pre bi b,
  nth_error pre bi = Some b ->
  (forall c, In c pre -> fltb b c = false) ->
  (forall j c, j < bi -> nth_error pre j = Some c -> c <> b) ->
  exists best,
    nth_error (pre ++ l) (argmax_from bi b (length pre) l) = Some best /\
    forall j c, j < argmax_from bi b (length pre) l ->
                nth_error (pre ++ l) j = Some c -> c <> best.
Proof.
  induction l as [|x l IH]; intros pre bi b Hbi Hmax Hfirst; cbn.
  - exists b. rewrite app_nil_r. auto.
  - assert (Hlen : S (length pre) = length (pre ++ [x]))
      by (rewrite length_app; cbn; lia).
    assert (Happ : pre ++ x :: l = (pre ++ [x]) ++ l)
      by (now rewrite <- app_assoc).
    assert (Hbi' : bi < length pre) by (apply nth_error_Some; congruence).
    rewrite Hlen, Happ.
    destruct (fltb b x) eqn:Hbx.
    + apply IH.
      * rewrite nth_error_app2 by lia. now rewrite Nat.sub_diag.
      * intros c Hc. apply in_app_or in Hc as [Hc|[<-|[]]].
        -- destruct (fltb x c) eqn:Hxc; [|reflexivity].
           pose proof (fltb_trans _ _ _ Hbx Hxc) as Hbc.
           rewrite (Hmax c Hc) in Hbc. discriminate.
        -- apply fltb_irrefl.
      * intros j c Hj Hc. rewrite nth_error_app1 in Hc by assumption.
        intros ->. apply nth_error_In in Hc.
        rewrite (Hmax x Hc) in Hbx. discriminate.
    + apply IH.
      * rewrite nth_error_app1; assumption.
      * intros c Hc. apply in_app_or in Hc as [Hc|[<-|[]]]; auto.
      * intros j c Hj Hc. rewrite nth_error_app1 in Hc by lia.
        now apply (Hfirst j).
Qed.

(** X20. Ties go to the name enrolled first.  In a run as in C1, the
    centroid chosen is the first, in the order of embeddings.json, whose
    cosine score equals the best score; when the decision is granted, its
    name is the name at that index. *)
Theorem X20_ties_go_to_the_first_enrolled
    (threshold : F) (show_window : bool) (now : string)
    (names : list string) (mat : list (list F))
    (pre : list (frame F)) (embedding : list F) (k : Z) (rest : list (frame F))
    (fs fs' : files F) (r : result (decision F)) :
  _load_db (embed_file fs) = Ok (names, mat) ->
  rectangular (length embedding) mat = true ->
  verify_face_live threshold show_window now
    (Some (pre ++ mkFrame (RepEmbedding embedding) k :: rest)) fs
  = (r, fs', Some rest) ->
  exists sims idx cos name d,
    cosine_similarity (l2_normalize embedding) mat = Ok sims /\
    nth_error sims idx = Some cos /\
    (forall j, nth_error sims j = Some cos -> idx <= j) /\
    nth_error names idx = Some name /\
    r = Ok d /\
    (dict_get "status" d = Some (PStr "granted") ->
     dict_get "name" d = Some (PStr name)).
Proof.
  intros Hload Hrect Hrun.
  destruct (verify_on_last_embedding _ _ _ _ _ _ _ _ _ _ _ _ Hload Hrect Hrun)
    as (sims & idx & target & cos & name & d0 & Hs & Hi & Ht & Hc & Hn & ->).
  assert (Hfirst : forall j, nth_error sims j = Some cos -> idx <= j).
  { destruct sims as [|x l]; [discriminate|]. cbn in Hi. injection Hi as <-.
    destruct (argmax_from_first l [x] 0 x eq_refl) as (best & Hbest & Hfirst).
    - intros c [<-|[]]. apply fltb_irrefl.
    - intros j c Hj. lia.
    - cbn [length app] in *. assert (best = cos) as -> by congruence.
      intros j Hj. destruct (Nat.lt_ge_cases j (argmax_from 0 x 1 l)) as [Hlt|];
        [|assumption].
      exfalso. exact (Hfirst j cos Hlt Hj eq_refl). }
  eexists sims, idx, cos, name, _.
  repeat (split; [first [assumption | reflexivity]|]).
  destruct (fltb threshold cos);
    match goal with
    | |- context [dict_update ?d1 [(_, ?s); (_, ?n); (_, ?c)]] =>
        destruct (decision_fields d1 s n c) as (Hst & Hnm & _ & _)
    end; [auto|].
  intros E. rewrite Hst in E. discriminate.
Qed.

End TieBreak.

(** ** When the loop stops *)

Section LoopExit.
Context {F : Type} `{NumOrder F}.
Implicit Types (st : locals F) (mat : list (list F)) (names : list string).




End LoopExit.

Section LoopStop.
Context {F : Type} `{Num F}.
Implicit Types (st : locals F) (mat : list (list F)) (names : list string).



End LoopStop.

(** ** Capturing the samples *)

Section FaceChoice.


Variable Img : Type.
Variable detectMultiScale : Img -> list face_box.
Variable sub_image : Img -> face_box -> Img.
Variable to_rgb_resized : Img -> Img.


End FaceChoice.

Section FileNames.

Lemma list_ascii_of_string_app (s t : string) :
  list_ascii_of_string (s ++ t)
  = list_ascii_of_string s ++ list_ascii_of_string t.
Proof. induction s as [|c s IH]; cbn; [reflexivity|]. now rewrite IH. Qed.

Lemma string_app_inv_tail (s1 s2 t : string) :
  (s1 ++ t)%string = (s2 ++ t)%string -> s1 = s2.
Proof.
  intros E. apply (f_equal list_ascii_of_string) in E.
  rewrite !list_ascii_of_string_app in E. apply app_inv_tail in E.
  apply (f_equal string_of_list_ascii) in E.
  now rewrite !string_of_list_ascii_of_string in E.
Qed.

Lemma str_of_nat_inj (n m : nat) : str_of_nat n = str_of_nat m -> n = m.
Proof.
  unfold str_of_nat. intros E.
  apply (f_equal NilEmpty.uint_of_string) in E.
  rewrite !NilEmpty.usu in E. injection E as E.
  now apply DecimalNat.Unsigned.to_uint_inj.
Qed.

(** Distinct rounds of the capture loop write distinct files. *)
Lemma img_name_inj (i j : nat) : img_name i = img_name j -> i = j.
Proof.
  unfold img_name. intros E. cbn in E. injection E as E.
  apply string_app_inv_tail, str_of_nat_inj in E. lia.
Qed.

End FileNames.

Section CaptureFacts.
Variable Img : Type.
Variable detectMultiScale : Img -> list face_box.
Variable sub_image : Img -> face_box -> Img.
Variable to_rgb_resized : Img -> Img.

Local Abbreviation crop :=
  (_crop_largest_face Img detectMultiScale sub_image to_rgb_resized).
Local Abbreviation capture_frames' :=
  (capture_frames Img detectMultiScale sub_image to_rgb_resized).
Local Abbreviation capture_user_images' :=
  (capture_user_images Img detectMultiScale sub_image to_rgb_resized).

Lemma capture_frames_spec (todo : nat) :
  forall (i : nat) (frames : list Img) (dirs : user_dirs Img) (count : nat),
    let k := Nat.min todo (length frames) in
    let '(dirs', count', rest) := capture_frames' i todo frames dirs count in
    count' = count + k /\
    rest = skipn k frames /\
    (forall j frame, nth_error frames j = Some frame -> j < k ->
       dict_get (img_name (i + j)) (raw_dir dirs') = Some frame /\
       dict_get (img_name (i + j)) (cropped_dir dirs') = Some (crop frame)) /\
    (forall file, (forall j, j < k -> file <> img_name (i + j)) ->
       dict_get file (raw_dir dirs') = dict_get file (raw_dir dirs) /\
       dict_get file (cropped_dir dirs') = dict_get file (cropped_dir dirs)).
Proof.
  induction todo as [|todo IH]; intros i frames dirs count; cbn -[img_name].
  - repeat split; try lia; intros j frame _ Hj; lia.
  - destruct frames as [|frame0 frames]; cbn -[img_name].
    + repeat split; try lia; intros j frame _ Hj; lia.
    + specialize (IH (S i) frames
                     (mkDirs (dict_set (img_name i) frame0 (raw_dir dirs))
                             (dict_set (img_name i) (crop frame0)
                                       (cropped_dir dirs)))
                     (S count)).
      cbv zeta in IH.
      destruct (capture_frames' (S i) todo frames _ (S count))
        as [[dirs' count'] rest].
      destruct IH as (Hcount & Hrest & Hfiles & Hother).
      split; [lia|]. split; [assumption|]. split.
      * intros j frame Hj Hlt. destruct j as [|j]; cbn in Hj.
        -- injection Hj as <-. rewrite Nat.add_0_r.
           destruct (Hother (img_name i)) as [Hr Hc].
           { intros j' _ E. apply img_name_inj in E. lia. }
           rewrite Hr, Hc. cbn -[img_name]. now rewrite !dict_get_set_same.
        -- replace (i + S j) with (S i + j) by lia.
           apply Hfiles; [assumption|lia].
      * intros file Hfile.
        destruct (Hother file) as [Hr Hc].
        { intros j' Hj'. replace (S i + j') with (i + S j') by lia.
          apply Hfile. lia. }
        rewrite Hr, Hc. cbn -[img_name].
        assert (Hne : file <> img_name i).
        { specialize (Hfile 0). rewrite Nat.add_0_r in Hfile.
          apply Hfile. lia. }
        now rewrite !dict_get_set_other.
Qed.

Lemma _ensure_user_dirs_get (user_name : string) (ds : dataset Img) :
  exists dirs,
    dict_get user_name (_ensure_user_dirs Img user_name ds) = Some dirs /\
    (dict_get user_name ds = None -> dirs = mkDirs [] []) /\
    (forall old, dict_get user_name ds = Some old -> dirs = old) /\
    forall other, other <> user_name ->
      dict_get other (_ensure_user_dirs Img user_name ds) = dict_get other ds.
Proof.
  unfold _ensure_user_dirs.
  destruct (dict_get user_name ds) as [old|] eqn:Hget.
  - exists old. rewrite Hget. repeat split; congruence.
  - exists (mkDirs [] []). rewrite dict_get_set_same.
    repeat split; try congruence.
    intros other Hother. now apply dict_get_set_other.
Qed.

(** X24. [capture_user_images] returns the number of frames it read: the
    number asked for, or the number the camera still had if that is
    smaller, and zero when a non-positive number is asked for.  Exactly
    that many frames are gone from the camera.  When the camera cannot be
    opened it raises, after the user's folders have been created. *)
Theorem X24_capture_counts_the_frames_read
    (user_name : string) (num_images : Z) (frames : list Img)
    (ds : dataset Img) :
  let k := Nat.min (Z.to_nat num_images) (length frames) in
  (exists ds',
     capture_user_images' user_name num_images (Some frames) ds
     = (Ok k, ds', Some (skipn k frames))) /\
  capture_user_images' user_name num_images None ds
  = (Raise (RuntimeError
              "Could not access webcam. Check permissions or device."),
     _ensure_user_dirs Img user_name ds, None).
Proof.
  cbv zeta. split; [|reflexivity].
  unfold capture_user_images.
  destruct (_ensure_user_dirs_get user_name ds) as (dirs & -> & _).
  pose proof (capture_frames_spec (Z.to_nat num_images) 0 frames dirs 0)
    as Hspec.
  cbv zeta in Hspec.
  destruct (capture_frames' 0 (Z.to_nat num_images) frames dirs 0)
    as [[dirs' count'] rest].
  destruct Hspec as (-> & -> & _). cbn. eauto.
Qed.


End CaptureFacts.

(* ================================================================== *)
(** * The further properties at concrete inputs *)

Import MoreExamples.

(** Goes through the records of a concrete registry. *)
Ltac each_record :=
  let Hin := fresh "Hin" in
  intros ? ? Hin; cbn in Hin;
  repeat (destruct Hin as [Hin|Hin]; [injection Hin as <- <-|]);
  [..|destruct Hin].

Ltac differ := let E := fresh "E" in intros E; vm_compute in E; discriminate E.



(** X2 for the same request. *)
Lemma X2_add_user_record_keeps_names_unique_witness :
  exists users',
    users_file (snd (add_user_record str_lower "Eve" "9c0d1e2f" two_users))
    = Content users' /\
    NoDup (map str_lower (dict_values users')).
Proof.
  apply (X2_add_user_record_keeps_names_unique str_lower "Eve" "9c0d1e2f"
           two_users
           (snd (add_user_record str_lower "Eve" "9c0d1e2f" two_users))
           [("1a2b3c4d"%string, ada); ("5e6f7a8b"%string, bob)]
           "9c0d1e2f").
  - reflexivity.
  - vm_compute. repeat constructor; cbn; intuition discriminate.
  - reflexivity.
Defined.

(** X3 for a name nobody has. *)
Lemma X3_delete_unknown_changes_nothing_witness :
  delete_user_record str_lower "Zed" two_users = (Ok false, two_users, None).
Proof.
  apply (X3_delete_unknown_changes_nothing str_lower "Zed" two_users
           [("1a2b3c4d"%string, ada); ("5e6f7a8b"%string, bob)]).
  - reflexivity.
  - each_record; split; differ.
Defined.

(** X4 for Ada, named in capitals. *)
Lemma X4_delete_removes_record_and_embeddings_witness :
  exists name fs',
    delete_user_record str_lower "ADA" two_users = (Ok true, fs', Some name) /\
    stored fs' name = None /\
    stored fs' bob = stored two_users bob.
Proof.
  destruct (X4_delete_removes_record_and_embeddings str_lower "ADA" two_users
              [("1a2b3c4d"%string, ada); ("5e6f7a8b"%string, bob)])
    as (uid & name & fs' & users' & Hdel & _ & _ & _ & _ & _ & Hgone & Hkept & _).
  - reflexivity.
  - vm_compute. repeat constructor; cbn; intuition discriminate.
  - cbn. intuition discriminate.
  - discriminate.
  - exists "1a2b3c4d"%string, ada. split; [now left|now right].
  - exists name, fs'. split; [assumption|]. split; [assumption|].
    apply Hkept. intros <-.
    vm_compute in Hdel. discriminate Hdel.
Defined.

(** X5 for Eve: created, then deleted by her id. *)
Lemma X5_add_then_delete_restores_registry_witness :
  exists fs2,
    delete_user_record str_lower "9c0d1e2f"
      (snd (add_user_record str_lower "Eve" "9c0d1e2f" two_users))
    = (Ok true, fs2, Some "Eve"%string) /\
    users_file fs2 = users_file two_users.
Proof.
  destruct (X5_add_then_delete_restores_registry str_lower "Eve" "9c0d1e2f"
              two_users
              (snd (add_user_record str_lower "Eve" "9c0d1e2f" two_users))
              [("1a2b3c4d"%string, ada); ("5e6f7a8b"%string, bob)])
    as (fs2 & Hdel & Husers & _).
  - reflexivity.
  - discriminate.
  - discriminate.
  - cbn. intuition discriminate.
  - each_record; differ.
  - reflexivity.
  - exists fs2. split; assumption.
Defined.


(** X8 for a capture of no frame. *)
Lemma X8_failed_job_writes_nothing_witness :
  store (process_registration ada (Captured 0 None) ada_enrolling)
  = store ada_enrolling.
Proof.
  apply (X8_failed_job_writes_nothing ada (Captured 0 None) ada_enrolling).
  reflexivity.
Defined.

(** X9 for two embeddings of two and of one component. *)
Lemma X9_mixed_dimensions_fail_the_job_witness :
  process_registration ada
    (Captured 2 (Some [RepEmbedding [1; 0]%Q; RepEmbedding [1]%Q]))
    ada_enrolling
  = mkServer (store ada_enrolling)
             (dict_set ada Failed (registration_status ada_enrolling)).
Proof.
  apply (X9_mixed_dimensions_fail_the_job ada 2
           [RepEmbedding [1; 0]%Q; RepEmbedding [1]%Q] ada_enrolling).
  - discriminate.
  - discriminate.
  - reflexivity.
Defined.

(** X10 for Eve and a capture of two usable frames. *)
Lemma X10_console_and_api_write_the_same_witness :
  snd (add_user_flow str_lower "Eve" "9c0d1e2f"
         (Captured 2 (Some [RepEmbedding [0; 1]%Q; RepEmbedding [0; 3]%Q]))
         (store office))
  = mkFiles (Content [("1a2b3c4d"%string, ada); ("5e6f7a8b"%string, bob);
                      ("9c0d1e2f"%string, "Eve"%string)])
            (Content [(ada, [[1; 0]%Q]); (bob, [[-1; 0]%Q]);
                      ("Eve"%string, [[0; 2]%Q])])
            (Content []).
Proof.
  pose proof (X10_console_and_api_write_the_same str_lower "Eve" "9c0d1e2f"
                (Captured 2 (Some [RepEmbedding [0; 1]%Q;
                                   RepEmbedding [0; 3]%Q]))
                office ltac:(discriminate)) as Hsame.
  vm_compute in Hsame. vm_compute. exact Hsame.
Defined.

(** X11 for a save under a new name. *)
Lemma X11_save_keeps_enrolment_order_witness :
  exists db',
    embed_file (snd (save_user_embeddings "Eve" [[0; 1]%Q] two_users))
    = Content db' /\
    dict_keys db' = [ada; bob; "Eve"%string] /\
    NoDup (dict_keys db').
Proof.
  apply (X11_save_keeps_enrolment_order "Eve" [[0; 1]%Q] two_users
           [(ada, [[1; 0]%Q]); (bob, [[-1; 0]%Q])]).
  - discriminate.
  - reflexivity.
  - vm_compute. repeat constructor; cbn; intuition discriminate.
Defined.

(** X12 for two saves under Bob's name. *)
Lemma X12_later_save_replaces_earlier_witness :
  save_user_embeddings bob [[0; 1]%Q]
    (snd (save_user_embeddings bob [[5; 5]%Q; [7; 7]%Q] two_users))
  = save_user_embeddings bob [[0; 1]%Q] two_users.
Proof.
  apply (X12_later_save_replaces_earlier bob [[5; 5]%Q; [7; 7]%Q] [[0; 1]%Q]
           two_users); discriminate.
Defined.

(** X14 for a third name saved next to Ada and Bob. *)
Lemma X14_saved_name_is_loaded_witness :
  exists names' mat',
    _load_db (embed_file (snd (save_user_embeddings "Eve"
                                 [[0; 1]%Q; [0; 3]%Q] two_users)))
    = Ok (names', mat') /\
    In "Eve"%string names' /\
    (forall i, nth_error names' i = Some "Eve"%string ->
       nth_error mat' i = Some (l2_normalize [0; 2]%Q)).
Proof.
  destruct (X14_saved_name_is_loaded "Eve" [[0; 1]%Q; [0; 3]%Q] [0; 2]%Q
              two_users [ada; bob] [[1; 0]%Q; [-1; 0]%Q])
    as (names' & mat' & Hload & Hin & _ & Hrow).
  - vm_compute. reflexivity.
  - vm_compute. reflexivity.
  - reflexivity.
  - exists names', mat'. auto.
Defined.

(** X15 for Ada's first vectors. *)
Lemma X15_first_save_makes_store_loadable_witness :
  _load_db (embed_file (snd (save_user_embeddings ada [[3; 4]%Q]
                               (store ada_enrolling))))
  = Ok ([ada], [l2_normalize (map (fun s => fdiv s (of_nat 1)) [3; 4]%Q)]).
Proof.
  apply (X15_first_save_makes_store_loadable ada [[3; 4]%Q]
           (map (fun s => fdiv s (of_nat 1)) [3; 4]%Q) (store ada_enrolling)).
  - left. reflexivity.
  - reflexivity.
  - discriminate.
Defined.

(** The run used below: one frame, cosine 0.6 with Ada's centroid. *)
Example granted_run_t :
  verify_face_live SIMILARITY_THRESHOLD false "t"
    (Some [mkFrame (RepEmbedding [3; 4]%Q) no_key]) two_users
  = (Ok granted_ada,
     mkFiles (users_file two_users) (embed_file two_users)
             (Content [granted_ada]),
     Some []).
Proof. vm_compute. reflexivity. Qed.

(** X16 on that run. *)
Lemma X16_decisions_are_well_formed_witness :
  dict_keys granted_ada = regular_keys /\
  dict_get "time" granted_ada = Some (PStr "t") /\
  (exists c, dict_get "confidence" granted_ada = Some (PStr c)) /\
  ((dict_get "status" granted_ada = Some (PStr "denied") /\
    (dict_get "name" granted_ada = Some PNone \/
     dict_get "name" granted_ada = Some (PStr "Unknown"))) \/
   (dict_get "status" granted_ada = Some (PStr "granted") /\
    exists n, dict_get "name" granted_ada = Some (PStr n))).
Proof.
  apply (X16_decisions_are_well_formed SIMILARITY_THRESHOLD false "t"
           (Some [mkFrame (RepEmbedding [3; 4]%Q) no_key]) two_users
           (mkFiles (users_file two_users) (embed_file two_users)
                    (Content [granted_ada]))
           (Some []) granted_ada).
  vm_compute. reflexivity.
Defined.

(** X17 on that run, which is granted. *)
Lemma X17_granted_name_is_enrolled_witness :
  exists n vecs,
    dict_get "name" granted_ada = Some (PStr n) /\
    stored two_users n = Some vecs /\ vecs <> [].
Proof.
  apply (X17_granted_name_is_enrolled SIMILARITY_THRESHOLD false "t"
           (Some [mkFrame (RepEmbedding [3; 4]%Q) no_key]) two_users
           (mkFiles (users_file two_users) (embed_file two_users)
                    (Content [granted_ada]))
           (Some []) granted_ada).
  - vm_compute. reflexivity.
  - reflexivity.
Defined.

(** X18 on the same run: the log, empty before, holds the decision. *)
Lemma X18_run_only_appends_to_log_witness :
  let run :=
    verify_face_live SIMILARITY_THRESHOLD false "t"
      (Some [mkFrame (RepEmbedding [3; 4]%Q) no_key]) two_users in
  users_file (snd (fst run)) = users_file two_users /\
  embed_file (snd (fst run)) = embed_file two_users /\
  match fst (fst run) with
  | Raise _ => snd (fst run) = two_users /\
               snd run = Some [mkFrame (RepEmbedding [3; 4]%Q) no_key]
  | Ok d =>
      (forall log, log_file two_users = Content log ->
         log_file (snd (fst run)) = Content (log ++ [d])) /\
      (log_file two_users = Absent -> log_file (snd (fst run)) = Content [d]) /\
      (log_file two_users = Corrupt -> log_file (snd (fst run)) = Corrupt)
  end.
Proof.
  cbv zeta.
  apply (X18_run_only_appends_to_log SIMILARITY_THRESHOLD false "t"
           (Some [mkFrame (RepEmbedding [3; 4]%Q) no_key])).
  vm_compute. reflexivity.
Defined.

(** X19 for the store in which Bob's vectors are ragged. *)
Lemma X19_bad_entry_blocks_every_verification_witness :
  exists msg,
    verify_face_live SIMILARITY_THRESHOLD false "t"
      (Some [mkFrame (RepEmbedding [1; 0]%Q) no_key]) ragged_store
    = (Raise (ValueError msg), ragged_store,
       Some [mkFrame (RepEmbedding [1; 0]%Q) no_key]).
Proof.
  apply (X19_bad_entry_blocks_every_verification SIMILARITY_THRESHOLD false "t"
           (Some [mkFrame (RepEmbedding [1; 0]%Q) no_key]) ragged_store
           [(ada, [[1; 0]%Q]); (bob, [[0; 1]%Q; [1]%Q])]
           bob [[0; 1]%Q; [1]%Q]); reflexivity.
Defined.

(** X20 for a probe orthogonal to both centroids: both score zero, and
    index 0, Ada's, is the one chosen. *)
Lemma X20_ties_go_to_the_first_enrolled_witness :
  exists sims idx cos,
    cosine_similarity (l2_normalize [0; 1]%Q) [[1; 0]%Q; [-1; 0]%Q] = Ok sims /\
    nth_error sims idx = Some cos /\
    (forall j, nth_error sims j = Some cos -> idx <= j) /\
    nth_error [ada; bob] idx = Some ada.
Proof.
  destruct (X20_ties_go_to_the_first_enrolled SIMILARITY_THRESHOLD false "t"
              [ada; bob] [[1; 0]%Q; [-1; 0]%Q]
              [] [0; 1]%Q no_key [] two_users
              (snd (fst (verify_face_live SIMILARITY_THRESHOLD false "t"
                           (Some [mkFrame (RepEmbedding [0; 1]%Q) no_key])
                           two_users)))
              (fst (fst (verify_face_live SIMILARITY_THRESHOLD false "t"
                           (Some [mkFrame (RepEmbedding [0; 1]%Q) no_key])
                           two_users))))
    as (sims & idx & cos & name & d & Hsims & Hcos & Hfirst & Hname & _).
  - vm_compute. reflexivity.
  - vm_compute. reflexivity.
  - vm_compute. reflexivity.
  - exists sims, idx, cos. repeat (split; [assumption|]).
    vm_compute in Hsims. injection Hsims as <-.
    assert (Hidx : idx <= 0).
    { destruct idx as [|[|idx]]; cbn in Hcos; try lia.
      - injection Hcos as <-. apply (Hfirst 0). reflexivity.
      - destruct idx; discriminate. }
    assert (idx = 0) by lia. subst idx. reflexivity.
Defined.



(** X23 at image 7, where three faces are detected: the crop is to the
    second face, the first of the two of area 400. *)
Example crop_demo :
  _crop_largest_face nat detect_demo sub_image_demo resize_demo 7 = 1407 /\
  _crop_largest_face nat detect_demo sub_image_demo resize_demo 3 = 1003 /\
  largest_face (detect_demo 7) = Some (5, 5, 20, 20)%Z.
Proof. repeat split. Qed.

(** X24 and X25 on a camera with two frames when three are asked for. *)
Example capture_demo :
  capture_user_images nat detect_demo sub_image_demo resize_demo
    "Eve" 3 (Some [7; 3]) []
  = (Ok 2,
     [("Eve"%string,
       mkDirs [("img_1.jpg"%string, 7); ("img_2.jpg"%string, 3)]
              [("img_1.jpg"%string, 1407); ("img_2.jpg"%string, 1003)])],
     Some []).
Proof. reflexivity. Qed.

(** ** Deleting, then registering again *)

Section Reregistration.
Context {F : Type} `{Num F}.
Variable lower : string -> string.
Implicit Types (srv : server F) (users : users_db).



End Reregistration.

